(** * Option strategy visualizer: legs, payoff aggregation, save/load/remove

    A shallow embedding of [option_strategy_plotter_v2.py]: the classes
    [Option] and [Stock] with their [payoff] and [label], the function
    [plot_strategy], the Save, Load, Add and Remove button handlers on the
    session state, and the frame of the CSV export.  The widgets are left
    out, and so is what matplotlib and Streamlit do with a figure: the
    drawing call is an argument of [plot_strategy].

    Numbers.  The attributes of a leg are exact rationals ([Q]): a value
    reached by arithmetic is stated up to [Qeq] ([==]) and a value that is
    only copied is stated with [=].  The arrays of [plot_strategy] are
    written against the operations of a number type, [Numeric], with two
    instances: the rationals, for the legs of a session, and binary64
    ([PrimFloat.float]), in which numpy computes.  What is proved for every
    [Numeric] uses no law of arithmetic and so holds of the binary64
    computation as it stands; what depends on rounding is proved on the
    binary64 instance itself.

    Arrays.  A numpy array is a list; an operator applied to an array acts
    on every element. *)

From Stdlib Require Import Floats.
From Stdlib Require Import QArith Qminmax ZArith List String Bool Lia Lqa.
Import ListNotations.

Local Open Scope Q_scope.

(** ** Python values and exceptions *)

(** The values that reach a leg's attributes: a [str] or a number.  In a
    numeric position [PStr s] stands for text that [float()] does not accept:
    numeric text of a file arrives as the number it denotes. *)
Inductive pyval : Type :=
  | PStr (s : string)
  | PNum (q : Q).

(** The exceptions the modelled statements can raise.  [OSError] stands for
    whatever [pd.read_csv] raises on a file it cannot read; [AttributeError]
    is what a method call on a value without that method raises. *)
Inductive exn : Type :=
  | ValueError
  | IndexError
  | OSError
  | AttributeError.

(** [v == s] for a string literal [s]: a number never equals a string. *)
Definition py_eq_str (v : pyval) (s : string) : bool :=
  match v with
  | PStr t => String.eqb t s
  | PNum _ => false
  end.

(** [float(v)]. *)
Definition py_float (v : pyval) : exn + Q :=
  match v with
  | PNum q => inr q
  | PStr _ => inl ValueError
  end.

(** ** Numbers *)

(** What the array code asks of its numbers: the constant 0, the four
    operations, an integer taken as a number, and [==]. *)
Class Numeric (A : Type) : Type := {
  num_zero : A;
  num_add : A -> A -> A;
  num_sub : A -> A -> A;
  num_mul : A -> A -> A;
  num_div : A -> A -> A;
  num_of_nat : nat -> A;
  num_eqb : A -> A -> bool
}.

(** Exact rationals. *)
#[export] Instance Q_Numeric : Numeric Q := {|
  num_zero := 0;
  num_add := Qplus;
  num_sub := Qminus;
  num_mul := Qmult;
  num_div := Qdiv;
  num_of_nat := fun n => inject_Z (Z.of_nat n);
  num_eqb := Qeq_bool
|}.

(** IEEE 754 binary64 with rounding to nearest even, numpy's [float64].  An
    integer below 2^53 is converted exactly. *)
#[export] Instance binary64 : Numeric float := {|
  num_zero := 0%float;
  num_add := PrimFloat.add;
  num_sub := PrimFloat.sub;
  num_mul := PrimFloat.mul;
  num_div := PrimFloat.div;
  num_of_nat := fun n => PrimFloat.of_uint63 (Uint63.of_Z (Z.of_nat n));
  num_eqb := PrimFloat.eqb
|}.

(** The float is neither an infinity nor NaN. *)
Definition finite (x : float) : bool :=
  match Prim2SF x with
  | S754_zero _ | S754_finite _ _ _ => true
  | S754_infinity _ | S754_nan => false
  end.

(** The pieces of an f-string in order: literal text, [s.title()] of a
    string, and a number shown with [str].  Title-casing and the printing of
    numbers are left to whoever shows the label. *)
Inductive fragment (A : Type) : Type :=
  | Text (s : string)
  | Titled (s : string)
  | Shown (x : A).

Arguments Text {A} s.
Arguments Titled {A} s.
Arguments Shown {A} x.

(** ** numpy *)

Module np.

(** [np.maximum(x, 0)] on one element. *)
Definition maximum (x y : Q) : Q := Qmax x y.

Section Arrays.

Context {A : Type} {NA : Numeric A}.

(** [np.zeros_like(S)]. *)
Definition zeros_like (S : list A) : list A := map (fun _ => num_zero) S.

(** [a + b] on arrays of one shape (what [net += payoff] computes). *)
Definition add (a b : list A) : list A :=
  map (fun p => num_add (fst p) (snd p)) (combine a b).

(** [np.arange(0, num)] as floats. *)
Definition arange (num : nat) : list A := map num_of_nat (seq 0 num).

(** [y[-1] = v] on a non-empty array. *)
Definition set_last (y : list A) (v : A) : list A :=
  match y with
  | [] => []
  | _ => removelast y ++ [v]
  end.

(** [np.linspace(start, stop, num)] with the default [endpoint=True], step
    by step as numpy builds it: [step = delta / div]; the indices are
    multiplied by the step (divided by [div] and multiplied by [delta] when
    the step is zero, multiplied by [delta] when there is no step to take),
    [start] is added, and the last sample is overwritten with [stop] when
    there are at least two. *)
Definition linspace (start stop : A) (num : nat) : list A :=
  let div := num_of_nat (num - 1) in
  let y := arange num in
  let delta := num_sub stop start in
  let y :=
    if (0 <? num - 1)%nat then
      let step := num_div delta div in
      if num_eqb step num_zero
      then map (fun v => num_mul (num_div v div) delta) y
      else map (fun v => num_mul v step) y
    else map (fun v => num_mul v delta) y in
  let y := map (fun v => num_add v start) y in
  if (1 <? num)%nat then set_last y stop else y.

End Arrays.

End np.

(** ** The two leg classes *)

Module Option.

Record t : Type := mk {
  position : pyval;
  option_type : pyval;
  strike : Q;
  premium : Q
}.

(** [Option(position, option_type, strike, premium)]: the two numeric
    arguments go through [float()], strike first. *)
Definition init (position option_type strike premium : pyval) : exn + t :=
  match py_float strike with
  | inl e => inl e
  | inr k =>
      match py_float premium with
      | inl e => inl e
      | inr p => inr (mk position option_type k p)
      end
  end.

Definition intrinsic (self : t) (S : Q) : Q :=
  if py_eq_str (option_type self) "call"
  then np.maximum (S - strike self) 0
  else np.maximum (strike self - S) 0.

Definition payoff (self : t) (S : Q) : Q :=
  if py_eq_str (position self) "long"
  then intrinsic self S - premium self
  else - intrinsic self S + premium self.

(** [label()]: [title()] is a method of [str] only, so a position or a kind
    that is not a string raises. *)
Definition label (self : t) : exn + list (fragment Q) :=
  match position self, option_type self with
  | PStr p, PStr k =>
      inr [Titled p; Text " "; Titled k; Text " (K="; Shown (strike self);
           Text ", P="; Shown (premium self); Text ")"]
  | _, _ => inl AttributeError
  end.

End Option.

Module Stock.

Record t : Type := mk {
  position : pyval;
  entry_price : Q
}.

(** [Stock(position, entry_price)]. *)
Definition init (position entry_price : pyval) : exn + t :=
  match py_float entry_price with
  | inl e => inl e
  | inr p => inr (mk position p)
  end.

Definition payoff (self : t) (S : Q) : Q :=
  if py_eq_str (position self) "buy"
  then S - entry_price self
  else entry_price self - S.

Definition label (self : t) : exn + list (fragment Q) :=
  match position self with
  | PStr p => inr [Titled p; Text " Stock (Entry="; Shown (entry_price self); Text ")"]
  | PNum _ => inl AttributeError
  end.

End Stock.

(** An element of the list [options + stocks]: the loop of [plot_strategy]
    calls [payoff] on whichever class it meets. *)
Inductive leg : Type :=
  | OptionLeg (o : Option.t)
  | StockLeg (s : Stock.t).

Definition leg_payoff (l : leg) (S : Q) : Q :=
  match l with
  | OptionLeg o => Option.payoff o S
  | StockLeg s => Stock.payoff s S
  end.

Definition leg_label (l : leg) : exn + list (fragment Q) :=
  match l with
  | OptionLeg o => Option.label o
  | StockLeg s => Stock.label s
  end.

(** [options + stocks]. *)
Definition all_legs (options : list Option.t) (stocks : list Stock.t) : list leg :=
  map OptionLeg options ++ map StockLeg stocks.

(** ** plot_strategy *)

(** One [Line2D] of the figure: its data and its legend label, if any. *)
Record line (A : Type) : Type := mk_line {
  xdata : list A;
  ydata : list A;
  line_label : option (list (fragment A))
}.

Arguments mk_line {A} xdata ydata line_label.
Arguments xdata {A} l.
Arguments ydata {A} l.
Arguments line_label {A} l.

(** What [plot_strategy] returns: the grid [S], the net curve, and the
    figure, kept as the lines drawn on its axes in drawing order (titles,
    colours and the legend box are left out). *)
Record plot_result (A : Type) : Type := mk_plot {
  grid : list A;
  net : list A;
  fig : list (line A)
}.

Arguments mk_plot {A} grid net fig.
Arguments grid {A} p.
Arguments net {A} p.
Arguments fig {A} p.

Section Plot.

Context {A : Type} {NA : Numeric A}.

(** The objects in the two lists: [plot_strategy] asks them for [payoff]
    (here on one price; on an array it acts on every element) and for
    [label], which may raise. *)
Context {L : Type}.
Variable payoff : L -> A -> A.
Variable label : L -> exn + list (fragment A).

(** [st.pyplot(fig)]: what the libraries do with the figure, which may be to
    raise. *)
Variable pyplot : list (line A) -> exn + unit.

(** The loop over [options + stocks]: the payoff is computed and added to
    [net] before the label is asked for. *)
Fixpoint plot_loop (S : list A) (legs : list L) (net : list A)
    (drawn : list (line A)) : exn + (list A * list (line A)) :=
  match legs with
  | [] => inr (net, drawn)
  | leg :: rest =>
      let payoff_S := map (payoff leg) S in
      let net := np.add net payoff_S in
      match label leg with
      | inl e => inl e
      | inr text => plot_loop S rest net (drawn ++ [mk_line S payoff_S (Some text)])
      end
  end.

(** After the loop come the net curve, [ax.axhline(0, ...)] (a line from 0
    to 1 across the axes at height 0) and the drawing call. *)
Definition plot_strategy (options stocks : list L) (s_min s_max : A)
  : exn + plot_result A :=
  let S := np.linspace s_min s_max 1001 in
  match plot_loop S (options ++ stocks) (np.zeros_like S) [] with
  | inl e => inl e
  | inr (net, drawn) =>
      let fig :=
        drawn ++
        [mk_line S net (Some [Text "Net Payoff"]);
         mk_line [num_zero; num_of_nat 1] [num_zero; num_zero] None] in
      match pyplot fig with
      | inl e => inl e
      | inr _ => inr (mk_plot S net fig)
      end
  end.

(** *** Reference notions for the loop *)

(** The labels of the legs in order, or the first exception a label raises. *)
Fixpoint labels (legs : list L) : exn + list (list (fragment A)) :=
  match legs with
  | [] => inr []
  | leg :: rest =>
      match label leg with
      | inl e => inl e
      | inr text =>
          match labels rest with
          | inl e => inl e
          | inr texts => inr (text :: texts)
          end
      end
  end.

(** The sum of the payoffs at price [s], taken leg by leg from 0. *)
Definition leg_sum (legs : list L) (s : A) : A :=
  fold_left (fun a leg => num_add a (payoff leg s)) legs num_zero.

(** One line per leg: its payoff over [S] under its label. *)
Definition leg_lines (S : list A) (legs : list L)
    (texts : list (list (fragment A))) : list (line A) :=
  map (fun lt => mk_line S (map (payoff (fst lt)) S) (Some (snd lt)))
      (combine legs texts).

End Plot.

(** The value [plot_strategy] returned, when it returned one. *)
Definition returned {A : Type} (x : exn + plot_result A) : plot_result A :=
  match x with
  | inr r => r
  | inl _ => mk_plot [] [] []
  end.

(** ** Session state *)

(** [st.session_state]: the two lists the handlers read and replace.  A key
    that is still absent reads as the empty list ([.get("options", [])] in
    Save, the defaults before Remove). *)
Record session_state : Type := mk_state {
  options : list Option.t;
  stocks : list Stock.t
}.

(** What a handler shows in the sidebar: [st.sidebar.success(text)] or
    [st.sidebar.error(f"Error loading file: {e}")]. *)
Inductive message : Type :=
  | Success (text : string)
  | Error (e : exn).

(** ** The strategy file *)

Module Row.

(** One row of the DataFrame, by column name. *)
Record t : Type := mk {
  type_ : pyval;
  position : pyval;
  option_type : pyval;
  strike_or_entry : pyval;
  premium : pyval
}.

End Row.

(** The file named [strategy_file] as [pd.read_csv] finds it: it cannot be
    read, or it holds a table.  A cell is the value that [row[column]] hands
    to the loop: text, or the number that numeric text denotes.  [df.to_csv]
    followed by [pd.read_csv] gives the cells that Load reads back as Save
    wrote them when the directions and kinds are the words of the form; what
    pandas makes of other text (an empty cell or a missing-value marker, a
    word made of digits) is not modelled. *)
Inductive csv_file : Type :=
  | Unreadable (e : exn)
  | Table (rows : list Row.t).

(** ** Save *)

Definition option_row (opt : Option.t) : Row.t :=
  Row.mk (PStr "option") (Option.position opt) (Option.option_type opt)
         (PNum (Option.strike opt)) (PNum (Option.premium opt)).

Definition stock_row (stk : Stock.t) : Row.t :=
  Row.mk (PStr "stock") (Stock.position stk) (PStr EmptyString)
         (PNum (Stock.entry_price stk)) (PNum 0).

(** The Save button: the rows of [data], options first, written to the file. *)
Definition save_handler (st : session_state) : csv_file * message :=
  let data := map option_row (options st) ++ map stock_row (stocks st) in
  (Table data, Success "Saved!").

(** ** Load *)

(** Statements that update the session state and may raise: the state
    reached so far survives an exception. *)
Definition M (A : Type) : Type := session_state -> session_state * (exn + A).

Definition ret {A : Type} (a : A) : M A := fun st => (st, inr a).

Definition bind {A B : Type} (m : M A) (f : A -> M B) : M B :=
  fun st =>
    match m st with
    | (st', inr a) => f a st'
    | (st', inl e) => (st', inl e)
    end.

(** The outcome of evaluating an expression that reads no state. *)
Definition lift {A : Type} (r : exn + A) : M A := fun st => (st, r).

Notation "x <- m ;; k" := (bind m (fun x => k))
  (at level 61, m at next level, right associativity).
Notation "m ;;; k" := (bind m (fun _ => k))
  (at level 61, right associativity).

(** [st.session_state["options"] = l] and [... ["stocks"] = l]. *)
Definition set_options (l : list Option.t) : M unit :=
  fun st => (mk_state l (stocks st), inr tt).

Definition set_stocks (l : list Stock.t) : M unit :=
  fun st => (mk_state (options st) l, inr tt).

(** [st.session_state["options"].append(o)] and the same for stocks. *)
Definition append_option (o : Option.t) : M unit :=
  fun st => (mk_state (options st ++ [o]) (stocks st), inr tt).

Definition append_stock (s : Stock.t) : M unit :=
  fun st => (mk_state (options st) (stocks st ++ [s]), inr tt).

(** [pd.read_csv(strategy_file)]. *)
Definition read_csv (file : csv_file) : M (list Row.t) :=
  match file with
  | Unreadable e => lift (inl e)
  | Table rows => ret rows
  end.

(** The body of [for _, row in df.iterrows()]. *)
Definition load_row (row : Row.t) : M unit :=
  if py_eq_str (Row.type_ row) "option" then
    o <- lift (Option.init (Row.position row) (Row.option_type row)
                           (Row.strike_or_entry row) (Row.premium row)) ;;
    append_option o
  else
    s <- lift (Stock.init (Row.position row) (Row.strike_or_entry row)) ;;
    append_stock s.

Fixpoint load_rows (df : list Row.t) : M unit :=
  match df with
  | [] => ret tt
  | row :: rest => load_row row ;;; load_rows rest
  end.

(** The statements inside [try:]. *)
Definition load_body (file : csv_file) : M unit :=
  df <- read_csv file ;;
  set_options [] ;;;
  set_stocks [] ;;;
  load_rows df.

(** The Load button: [try: ... except Exception as e: ...]. *)
Definition load_handler (file : csv_file) (st : session_state)
  : session_state * message :=
  match load_body file st with
  | (st', inr _) => (st', Success "Loaded!")
  | (st', inl e) => (st', Error e)
  end.

(** ** Remove *)

(** [del l[i]]: a negative index counts from the end; an index that is still
    out of range raises [IndexError]. *)
Definition py_del {A : Type} (l : list A) (i : Z) : exn + list A :=
  let n := Z.of_nat (List.length l) in
  let j := if (i <? 0)%Z then (i + n)%Z else i in
  if ((0 <=? j) && (j <? n))%Z
  then inr (firstn (Z.to_nat j) l ++ skipn (S (Z.to_nat j)) l)
  else inl IndexError.

(** The Remove button for the selected index [remove_idx], an integer (the
    select box offers [range(len(all_labels))]; its answer when there is no
    leg at all is not modelled).  Nothing catches the exception: the state is
    then left as it was. *)
Definition remove_handler (remove_idx : Z) (st : session_state)
  : exn + session_state :=
  let n := Z.of_nat (List.length (options st)) in
  if (remove_idx <? n)%Z then
    match py_del (options st) remove_idx with
    | inl e => inl e
    | inr l => inr (mk_state l (stocks st))
    end
  else
    match py_del (stocks st) (remove_idx - n) with
    | inl e => inl e
    | inr l => inr (mk_state (options st) l)
    end.

(** ** Reference notions used in the statements *)

(** The legs of a session in the combined options-then-stocks order. *)
Definition legs_of (st : session_state) : list leg :=
  all_legs (options st) (stocks st).

(** The list [l] without its element at index [i]. *)
Definition without {A : Type} (i : nat) (l : list A) : list A :=
  firstn i l ++ skipn (S i) l.

(** The data model's option leg: direction long or short, kind call or put,
    strike and premium not negative. *)
Definition valid_option (o : Option.t) : Prop :=
  (Option.position o = PStr "long" \/ Option.position o = PStr "short") /\
  (Option.option_type o = PStr "call" \/ Option.option_type o = PStr "put") /\
  0 <= Option.strike o /\ 0 <= Option.premium o.

(** The data model's stock leg: direction buy or sell, entry price not
    negative. *)
Definition valid_stock (s : Stock.t) : Prop :=
  (Stock.position s = PStr "buy" \/ Stock.position s = PStr "sell") /\
  0 <= Stock.entry_price s.

Definition valid_portfolio (st : session_state) : Prop :=
  Forall valid_option (options st) /\ Forall valid_stock (stocks st).

(** ** Add *)

(** The words the three select boxes of the form offer. *)
Definition position_choices : list string := ["long"; "short"]%string.

Definition type_choices : list string := ["call"; "put"]%string.

Definition stock_position_choices : list string := ["buy"; "sell"]%string.

(** The Add Option button: [pos] and [typ] are the selected words, [k] and
    [p] the floats of the two number inputs. *)
Definition add_option_handler (pos typ : string) (k p : Q) : M unit :=
  o <- lift (Option.init (PStr pos) (PStr typ) (PNum k) (PNum p)) ;;
  append_option o.

(** The Add Stock button. *)
Definition add_stock_handler (pos : string) (ep : Q) : M unit :=
  s <- lift (Stock.init (PStr pos) (PNum ep)) ;;
  append_stock s.

(** The indices the Remove select box offers, [list(range(len(all_labels)))]:
    [all_labels] holds one label per option followed by one per stock. *)
Definition remove_choices (st : session_state) : list Z :=
  map Z.of_nat (seq 0 (List.length (options st) + List.length (stocks st))).

(** ** The chart and the export *)

(** The call of [plot_strategy] on the session's two lists. *)
Definition plot_session (pyplot : list (line Q) -> exn + unit)
    (st : session_state) (s_min s_max : Q) : exn + plot_result Q :=
  plot_strategy leg_payoff leg_label pyplot
    (map OptionLeg (options st)) (map StockLeg (stocks st)) s_min s_max.

(** [pd.DataFrame({"Spot": S, "Net_Payoff": net})], kept as its rows
    (Spot, Net_Payoff) in index order; columns of different lengths raise
    [ValueError].  The text that [to_csv] makes of the frame is left out. *)
Definition export_frame {A : Type} (S net : list A) : exn + list (A * A) :=
  if (List.length S =? List.length net)%nat
  then inr (combine S net)
  else inl ValueError.

(** ** Reference notions for rows *)

(** The row goes to the option branch of Load. *)
Definition is_option_row (row : Row.t) : bool :=
  py_eq_str (Row.type_ row) "option".

Definition is_number (v : pyval) : bool :=
  match v with
  | PNum _ => true
  | PStr _ => false
  end.

(** The numeric cells that Load reads from the row hold numbers:
    [strike_or_entry] always, [premium] on the option branch. *)
Definition row_converts (row : Row.t) : bool :=
  is_number (Row.strike_or_entry row) &&
  (negb (is_option_row row) || is_number (Row.premium row)).

(** The row as Save writes a stock that was loaded from it: type "stock",
    no kind, premium 0. *)
Definition as_stock_row (row : Row.t) : Row.t :=
  Row.mk (PStr "stock") (Row.position row) (PStr EmptyString)
         (Row.strike_or_entry row) (PNum 0).

(** * Properties *)

(** ** Arrays *)

Section ArrayFacts.

Context {A : Type} {NA : Numeric A}.

Lemma arange_length (num : nat) : List.length (np.arange (A := A) num) = num.
Proof. unfold np.arange. now rewrite length_map, length_seq. Qed.

Lemma map_nth_in (f : A -> A) (l : list A) (i : nat) (d : A) :
  (i < List.length l)%nat -> nth i (map f l) d = f (nth i l d).
Proof.
  intros H. rewrite (nth_indep _ d (f d)) by now rewrite length_map.
  apply map_nth.
Qed.

Lemma arange_nth (num i : nat) (d : A) :
  (i < num)%nat -> nth i (np.arange num) d = num_of_nat i.
Proof.
  intros H. unfold np.arange.
  rewrite (nth_indep _ d (num_of_nat 0)) by now rewrite length_map, length_seq.
  rewrite (map_nth num_of_nat). now rewrite seq_nth.
Qed.

Lemma set_last_length (y : list A) (v : A) :
  List.length (np.set_last y v) = List.length y.
Proof.
  destruct y as [|a y]; [reflexivity|].
  unfold np.set_last. rewrite length_app, removelast_firstn_len, length_firstn.
  cbn [List.length]. lia.
Qed.

Lemma set_last_nth (y : list A) (v d : A) (i : nat) :
  (i < List.length y)%nat ->
  nth i (np.set_last y v) d =
  if (i =? List.length y - 1)%nat then v else nth i y d.
Proof.
  intros H. destruct y as [|a y]; [inversion H|].
  unfold np.set_last. rewrite removelast_firstn_len.
  remember (a :: y) as l eqn:El.
  assert (Hlen : List.length (firstn (pred (List.length l)) l) = (List.length l - 1)%nat)
    by (rewrite length_firstn; lia).
  destruct (Nat.eqb_spec i (List.length l - 1)) as [->|Hne].
  - rewrite app_nth2 by lia. rewrite Hlen, Nat.sub_diag. reflexivity.
  - rewrite app_nth1 by lia. rewrite nth_firstn.
    destruct (Nat.ltb_spec i (pred (List.length l))); [reflexivity|lia].
Qed.

(** ** The grid *)

Lemma linspace_length (start stop : A) (num : nat) :
  List.length (np.linspace start stop num) = num.
Proof.
  unfold np.linspace.
  assert (H : forall f : A -> A,
             List.length (map (fun v => num_add v start) (map f (np.arange num))) = num)
    by (intros f; now rewrite !length_map, arange_length).
  destruct (1 <? num)%nat; [rewrite set_last_length|];
    destruct (0 <? num - 1)%nat; try destruct (num_eqb _ num_zero); apply H.
Qed.

(** Every sample but the last is the index times the step plus [start], in
    the operations of the number type and in that order (the index over
    [div] times [delta] plus [start] when the step is zero). *)
Lemma linspace_nth (start stop : A) (num i : nat) (d : A) :
  (2 <= num)%nat -> (i < num - 1)%nat ->
  nth i (np.linspace start stop num) d =
  if num_eqb (num_div (num_sub stop start) (num_of_nat (num - 1))) num_zero
  then num_add (num_mul (num_div (num_of_nat i) (num_of_nat (num - 1)))
                        (num_sub stop start)) start
  else num_add (num_mul (num_of_nat i)
                        (num_div (num_sub stop start) (num_of_nat (num - 1)))) start.
Proof.
  intros Hnum Hi. unfold np.linspace.
  destruct (Nat.ltb_spec 1 num) as [_|]; [|lia].
  destruct (Nat.ltb_spec 0 (num - 1)) as [_|]; [|lia].
  assert (Hlen : forall f : A -> A,
             List.length (map (fun v => num_add v start) (map f (np.arange num))) = num)
    by (intros f; now rewrite !length_map, arange_length).
  assert (Hlen' : forall f : A -> A, List.length (map f (np.arange num)) = num)
    by (intros f; now rewrite length_map, arange_length).
  destruct (num_eqb _ num_zero);
    (rewrite set_last_nth by (rewrite Hlen; lia); rewrite Hlen;
     destruct (Nat.eqb_spec i (num - 1)) as [->|_]; [lia|];
     rewrite map_nth_in by (rewrite Hlen'; lia);
     rewrite map_nth_in by (rewrite arange_length; lia);
     rewrite arange_nth by lia; reflexivity).
Qed.

(** The last sample is [stop] itself, not the result of a computation. *)
Lemma linspace_stop (start stop : A) (num : nat) (d : A) :
  (2 <= num)%nat -> nth (num - 1) (np.linspace start stop num) d = stop.
Proof.
  intros Hnum. unfold np.linspace.
  destruct (Nat.ltb_spec 1 num) as [_|]; [|lia].
  assert (Hlen : forall f : A -> A,
             List.length (map (fun v => num_add v start) (map f (np.arange num))) = num)
    by (intros f; now rewrite !length_map, arange_length).
  destruct (0 <? num - 1)%nat; try destruct (num_eqb _ num_zero);
    (rewrite set_last_nth by (rewrite Hlen; lia); rewrite Hlen, Nat.eqb_refl;
     reflexivity).
Qed.

Lemma linspace_last (start stop : A) (num : nat) (d : A) :
  (2 <= num)%nat -> last (np.linspace start stop num) d = stop.
Proof.
  intros Hnum. unfold np.linspace.
  destruct (Nat.ltb_spec 1 num) as [_|]; [|lia].
  set (y := map _ _).
  assert (Hy : y <> []).
  { intros E. apply (f_equal (@List.length A)) in E. subst y.
    destruct (0 <? num - 1)%nat; try destruct (num_eqb _ num_zero);
      rewrite !length_map, arange_length in E; simpl in E; lia. }
  destruct y as [|a y']; [contradiction|].
  unfold np.set_last. apply last_last.
Qed.

End ArrayFacts.
(** ** Payoff of one leg *)

(** C1.  For every price [S], strike [K] and premium [P] (the bounds
    [K >= 0] and [P >= 0] are not needed), the payoff of an option leg is
    [intrinsic - P] when long and [P - intrinsic] when short, where the
    intrinsic value is [max(S - K, 0)] for a call and [max(K - S, 0)] for a
    put.  [Option.payoff] is a total function of [S]. *)
Theorem option_payoff_formula :
  forall S K P : Q,
    Option.payoff (Option.mk (PStr "long") (PStr "call") K P) S == Qmax (S - K) 0 - P /\
    Option.payoff (Option.mk (PStr "long") (PStr "put") K P) S == Qmax (K - S) 0 - P /\
    Option.payoff (Option.mk (PStr "short") (PStr "call") K P) S == P - Qmax (S - K) 0 /\
    Option.payoff (Option.mk (PStr "short") (PStr "put") K P) S == P - Qmax (K - S) 0.
Proof.
  intros S K P.
  unfold Option.payoff, Option.intrinsic, np.maximum; cbn.
  repeat split; ring.
Qed.

(** The intrinsic value written out by cases: nothing below the strike for a
    call, the excess over it above. *)
Lemma call_intrinsic_cases (pos : pyval) (S K P : Q) :
  (S <= K -> Option.intrinsic (Option.mk pos (PStr "call") K P) S == 0) /\
  (K <= S -> Option.intrinsic (Option.mk pos (PStr "call") K P) S == S - K).
Proof.
  unfold Option.intrinsic, np.maximum; cbn. split; intros H.
  - apply Q.max_r. lra.
  - apply Q.max_l. lra.
Qed.

Example long_call_100_5_at_90 :
  Option.payoff (Option.mk (PStr "long") (PStr "call") 100 5) 90 == -5.
Proof. reflexivity. Qed.

Example long_call_100_5_at_120 :
  Option.payoff (Option.mk (PStr "long") (PStr "call") 100 5) 120 == 15.
Proof. reflexivity. Qed.

(** C10.  A direction string that is not recognised does not fail: an
    option leg whose position is any string other than "long" pays exactly
    what the same leg pays as "short", that is [premium - intrinsic]
    ([P - max(S - K, 0)] for a call, [P - max(K - S, 0)] for a put), and a
    stock leg whose position is any string other than "buy" pays what it
    pays as "sell", [entry_price - S]. *)
Theorem unrecognised_direction_falls_back :
  forall d : string,
    (d <> "long"%string ->
     forall (typ : pyval) (K P S : Q),
       Option.payoff (Option.mk (PStr d) typ K P) S =
       Option.payoff (Option.mk (PStr "short") typ K P) S /\
       Option.payoff (Option.mk (PStr d) (PStr "call") K P) S == P - Qmax (S - K) 0 /\
       Option.payoff (Option.mk (PStr d) (PStr "put") K P) S == P - Qmax (K - S) 0) /\
    (d <> "buy"%string ->
     forall E S : Q,
       Stock.payoff (Stock.mk (PStr d) E) S =
       Stock.payoff (Stock.mk (PStr "sell") E) S /\
       Stock.payoff (Stock.mk (PStr d) E) S = E - S).
Proof.
  intros d. split; intros Hd.
  - intros typ K P S. unfold Option.payoff, Option.intrinsic, np.maximum.
    cbn [Option.position Option.option_type Option.strike Option.premium py_eq_str].
    destruct (String.eqb_spec d "long"); [contradiction|].
    destruct (String.eqb_spec "short" "long") as [|_]; [discriminate|].
    destruct (String.eqb_spec "call" "call") as [_|]; [|congruence].
    destruct (String.eqb_spec "put" "call") as [|_]; [discriminate|].
    repeat split; [ring|ring].
  - intros E S. unfold Stock.payoff.
    cbn [Stock.position Stock.entry_price py_eq_str].
    destruct (String.eqb_spec d "buy"); [contradiction|].
    destruct (String.eqb_spec "sell" "buy") as [|_]; [discriminate|].
    split; reflexivity.
Qed.

Lemma unrecognised_direction_example :
  (Option.payoff (Option.mk (PStr "sideways") (PStr "call") 100 5) 120 =
   Option.payoff (Option.mk (PStr "short") (PStr "call") 100 5) 120 /\
   Option.payoff (Option.mk (PStr "sideways") (PStr "call") 100 5) 120 ==
   5 - Qmax (120 - 100) 0 /\
   Option.payoff (Option.mk (PStr "sideways") (PStr "put") 100 5) 120 ==
   5 - Qmax (100 - 120) 0) /\
  (Stock.payoff (Stock.mk (PStr "hold") 50) 70 =
   Stock.payoff (Stock.mk (PStr "sell") 50) 70 /\
   Stock.payoff (Stock.mk (PStr "hold") 50) 70 = 50 - 70).
Proof.
  split.
  - apply (proj1 (unrecognised_direction_falls_back "sideways")). discriminate.
  - apply (proj2 (unrecognised_direction_falls_back "hold")). discriminate.
Defined.

(** ** Opposite legs *)

(** X1.  A long and a short option on the same terms (same kind, whatever
    it is, same strike and premium) cancel at every price. *)
Lemma long_short_cancel (typ : pyval) (K P S : Q) :
  Option.payoff (Option.mk (PStr "long") typ K P) S +
  Option.payoff (Option.mk (PStr "short") typ K P) S == 0.
Proof.
  unfold Option.payoff, Option.intrinsic.
  cbn [Option.position Option.premium Option.option_type Option.strike py_eq_str].
  destruct (String.eqb_spec "long" "long") as [_|]; [|congruence].
  destruct (String.eqb_spec "short" "long") as [|_]; [discriminate|].
  destruct (py_eq_str typ "call"); ring.
Qed.

(** X2.  A bought and a sold stock with one entry price cancel at every
    price. *)
Lemma buy_sell_cancel (E S : Q) :
  Stock.payoff (Stock.mk (PStr "buy") E) S +
  Stock.payoff (Stock.mk (PStr "sell") E) S == 0.
Proof.
  unfold Stock.payoff. cbn [Stock.position Stock.entry_price py_eq_str].
  destruct (String.eqb_spec "buy" "buy") as [_|]; [|congruence].
  destruct (String.eqb_spec "sell" "buy") as [|_]; [discriminate|].
  ring.
Qed.


(** ** The loop of plot_strategy *)

Section PlotFacts.

Context {A : Type} {NA : Numeric A} {L : Type}.
Variable payoff : L -> A -> A.
Variable label : L -> exn + list (fragment A).
Variable pyplot : list (line A) -> exn + unit.

Lemma add_map (g h : A -> A) (S : list A) :
  np.add (map g S) (map h S) = map (fun s => num_add (g s) (h s)) S.
Proof.
  unfold np.add. induction S as [|s S IH]; [reflexivity|].
  cbn. now f_equal.
Qed.

(** The loop invariant: entry [s] of the accumulator is its starting value
    plus the payoffs of the legs seen, added one by one, and one line was
    drawn per leg seen; the loop stops at the first label that raises. *)
Lemma plot_loop_spec (S : list A) (legs : list L) :
  forall (g : A -> A) (drawn : list (line A)),
    plot_loop payoff label S legs (map g S) drawn =
    match labels label legs with
    | inl e => inl e
    | inr texts =>
        inr (map (fun s => fold_left (fun a leg => num_add a (payoff leg s)) legs (g s)) S,
             drawn ++ leg_lines payoff S legs texts)
    end.
Proof.
  induction legs as [|leg legs IH]; intros g drawn.
  - cbn. now rewrite app_nil_r.
  - cbn [plot_loop labels fold_left]. rewrite add_map.
    destruct (label leg) as [e|text]; [reflexivity|].
    rewrite IH. destruct (labels label legs) as [e|texts]; [reflexivity|].
    unfold leg_lines. cbn [combine map fst snd].
    now rewrite <- app_assoc.
Qed.

(** [plot_strategy] in one equation: a label that raises ends it; otherwise
    the figure is handed to the drawing call, whose exception is passed on
    and whose return lets [plot_strategy] return. *)
Lemma plot_strategy_spec (options stocks : list L) (s_min s_max : A) :
  plot_strategy payoff label pyplot options stocks s_min s_max =
  match labels label (options ++ stocks) with
  | inl e => inl e
  | inr texts =>
      match pyplot (leg_lines payoff (np.linspace s_min s_max 1001)
                              (options ++ stocks) texts ++
                    [mk_line (np.linspace s_min s_max 1001)
                             (map (leg_sum payoff (options ++ stocks))
                                  (np.linspace s_min s_max 1001))
                             (Some [Text "Net Payoff"]);
                     mk_line [num_zero; num_of_nat 1] [num_zero; num_zero] None])
      with
      | inl e => inl e
      | inr _ =>
          inr (mk_plot
                 (np.linspace s_min s_max 1001)
                 (map (leg_sum payoff (options ++ stocks))
                      (np.linspace s_min s_max 1001))
                 (leg_lines payoff (np.linspace s_min s_max 1001)
                            (options ++ stocks) texts ++
                  [mk_line (np.linspace s_min s_max 1001)
                           (map (leg_sum payoff (options ++ stocks))
                                (np.linspace s_min s_max 1001))
                           (Some [Text "Net Payoff"]);
                   mk_line [num_zero; num_of_nat 1] [num_zero; num_zero] None]))
      end
  end.
Proof.
  unfold plot_strategy, np.zeros_like. rewrite plot_loop_spec.
  destruct (labels label (options ++ stocks)) as [e|texts]; reflexivity.
Qed.

Lemma labels_length (legs : list L) (texts : list (list (fragment A))) :
  labels label legs = inr texts -> List.length texts = List.length legs.
Proof.
  revert texts. induction legs as [|leg legs IH]; intros texts H.
  - cbn in H. injection H as <-. reflexivity.
  - cbn in H. destruct (label leg) as [e|text]; [discriminate|].
    destruct (labels label legs) as [e|ts]; [discriminate|].
    injection H as <-. cbn. f_equal. now apply IH.
Qed.

(** What a returned value holds. *)
Lemma plot_strategy_returned (options stocks : list L) (s_min s_max : A)
    (r : plot_result A) :
  plot_strategy payoff label pyplot options stocks s_min s_max = inr r ->
  grid r = np.linspace s_min s_max 1001 /\
  net r = map (fun s => fold_left (fun a leg => num_add a (payoff leg s))
                                  (options ++ stocks) num_zero)
              (np.linspace s_min s_max 1001) /\
  exists texts : list (list (fragment A)),
    labels label (options ++ stocks) = inr texts /\
    fig r =
    leg_lines payoff (np.linspace s_min s_max 1001) (options ++ stocks) texts ++
    [mk_line (np.linspace s_min s_max 1001) (net r) (Some [Text "Net Payoff"]);
     mk_line [num_zero; num_of_nat 1] [num_zero; num_zero] None].
Proof.
  rewrite plot_strategy_spec.
  destruct (labels label (options ++ stocks)) as [e|texts]; [discriminate|].
  destruct (pyplot _) as [e|u]; [discriminate|].
  intros H. injection H as <-. cbn [grid net fig].
  repeat split. exists texts. split; reflexivity.
Qed.

End PlotFacts.

(** ** binary64 *)

Local Open Scope float_scope.

Lemma finite_spec (x : float) :
  finite x = true ->
  (exists b : bool, Prim2SF x = S754_zero b) \/
  (exists (s : bool) (m : positive) (e : Z), Prim2SF x = S754_finite s m e).
Proof.
  unfold finite. destruct (Prim2SF x) as [b|b| |s m e]; try discriminate; intros _.
  - left. now exists b.
  - right. now exists s, m, e.
Qed.

Lemma SFeqb_refl_finite (x : spec_float) :
  match x with S754_zero _ | S754_finite _ _ _ => True | _ => False end ->
  SFeqb x x = true.
Proof.
  destruct x as [b|b| |s m e]; try contradiction; intros _; [reflexivity|].
  unfold SFeqb, SFcompare. rewrite Z.compare_refl, Pos.compare_cont_refl.
  destruct s; reflexivity.
Qed.

(** [x == x] for a float that is not NaN (here: finite). *)
Lemma eqb_refl_finite (x : float) : finite x = true -> (x =? x) = true.
Proof.
  intros H. rewrite FloatAxioms.eqb_spec. apply SFeqb_refl_finite.
  unfold finite in H. destruct (Prim2SF x); try discriminate; exact I.
Qed.

(** Zero times a finite float is a zero. *)
Lemma zero_mul_finite (y : float) :
  finite y = true -> exists b : bool, Prim2SF (0 * y) = S754_zero b.
Proof.
  intros H. rewrite FloatAxioms.mul_spec.
  change (Prim2SF 0) with (S754_zero false).
  destruct (finite_spec y H) as [[b ->]|[s [m [e ->]]]]; eexists; reflexivity.
Qed.

(** A zero plus a finite float equals that float. *)
Lemma zero_add_finite (z s : float) (b : bool) :
  Prim2SF z = S754_zero b -> finite s = true -> (z + s =? s) = true.
Proof.
  intros Hz Hs. rewrite FloatAxioms.eqb_spec, FloatAxioms.add_spec, Hz.
  destruct (finite_spec s Hs) as [[c E]|[c [m [e E]]]]; rewrite E.
  - destruct b, c; reflexivity.
  - cbn. apply (SFeqb_refl_finite (S754_finite c m e)). exact I.
Qed.

(** A quotient by 1000 that equals zero has a finite dividend. *)
Lemma zero_quotient_finite (delta : float) :
  (delta / 1000 =? 0) = true -> finite delta = true.
Proof.
  rewrite FloatAxioms.eqb_spec, FloatAxioms.div_spec. unfold finite.
  change (Prim2SF 1000) with (S754_finite false 8796093022208000 (-43)).
  change (Prim2SF 0) with (S754_zero false).
  destruct (Prim2SF delta) as [b|b| |s m e]; cbn; try reflexivity;
    try discriminate.
  destruct b; discriminate.
Qed.

(** A finite float minus itself is +0. *)
Lemma sub_self (s : float) : finite s = true -> s - s = 0.
Proof.
  intros H. apply Prim2SF_inj. rewrite FloatAxioms.sub_spec.
  change (Prim2SF 0) with (S754_zero false).
  destruct (finite_spec s H) as [[b ->]|[c [m [e ->]]]].
  - destruct b; reflexivity.
  - unfold SF64sub, SFsub. cbv zeta. rewrite Z.sub_diag. reflexivity.
Qed.

(** The first grid point equals [s_min] when [s_min] is finite and the step
    did not overflow. *)
Lemma grid_first (s_min s_max : float) :
  finite s_min = true ->
  finite ((s_max - s_min) / 1000) = true ->
  (nth 0 (np.linspace s_min s_max 1001) 0 =? s_min) = true.
Proof.
  intros Hs Hstep. rewrite linspace_nth by lia.
  change (1001 - 1)%nat with 1000%nat.
  change (num_of_nat (A := float) 1000) with 1000.
  change (num_of_nat (A := float) 0) with 0.
  cbn [num_eqb num_div num_sub num_mul num_add num_zero binary64].
  destruct ((s_max - s_min) / 1000 =? 0) eqn:E.
  - change (0 / 1000) with 0.
    destruct (zero_mul_finite (s_max - s_min) (zero_quotient_finite _ E)) as [b Hb].
    exact (zero_add_finite _ _ b Hb Hs).
  - destruct (zero_mul_finite _ Hstep) as [b Hb].
    exact (zero_add_finite _ _ b Hb Hs).
Qed.

Lemma index_over_1000_times_zero (i : nat) :
  (i < 1000)%nat ->
  Prim2SF (num_of_nat (A := float) i / 1000 * 0) = S754_zero false.
Proof.
  intros Hi.
  assert (H : forallb (fun i => match Prim2SF (num_of_nat (A := float) i / 1000 * 0) with
                                | S754_zero false => true
                                | _ => false
                                end) (seq 0 1000) = true)
    by (vm_compute; reflexivity).
  rewrite forallb_forall in H. specialize (H i).
  destruct (Prim2SF (num_of_nat (A := float) i / 1000 * 0)) as [[|]|b| |s m e];
    try reflexivity; (discriminate H; apply in_seq; lia).
Qed.

(** When the two ends are one finite float, every grid point equals it. *)
Lemma grid_constant (s : float) (i : nat) :
  finite s = true -> (i < 1001)%nat ->
  (nth i (np.linspace s s 1001) 0 =? s) = true.
Proof.
  intros Hs Hi. destruct (Nat.eq_dec i 1000) as [->|Hne].
  - change 1000%nat with (1001 - 1)%nat. rewrite linspace_stop by lia.
    now apply eqb_refl_finite.
  - rewrite linspace_nth by lia.
    change (1001 - 1)%nat with 1000%nat.
    change (num_of_nat (A := float) 1000) with 1000.
    cbn [num_eqb num_div num_sub num_mul num_add num_zero binary64].
    rewrite (sub_self s Hs).
    change (0 / 1000 =? 0) with true. cbv iota.
    exact (zero_add_finite _ _ false (index_over_1000_times_zero i ltac:(lia)) Hs).
Qed.

Local Close Scope float_scope.

(** ** The net curve *)

Lemma map_zero_repeat {A B : Type} (z : B) (S : list A) :
  map (fun _ : A => z) S = repeat z (List.length S).
Proof. induction S as [|s S IH]; [reflexivity|]. cbn. now f_equal. Qed.

(** The net curve of a session with one long call and one bought stock,
    written out. *)
Lemma call_and_stock_net (pyplot : list (line Q) -> exn + unit)
    (K P E s_min s_max : Q) (r : plot_result Q) :
  plot_session pyplot
    (mk_state [Option.mk (PStr "long") (PStr "call") K P]
              [Stock.mk (PStr "buy") E]) s_min s_max = inr r ->
  net r = map (fun s => 0 + (Qmax (s - K) 0 - P) + (s - E)) (grid r).
Proof.
  unfold plot_session. intros H.
  apply plot_strategy_returned in H. destruct H as [Hg [Hn _]].
  rewrite Hn, Hg. apply map_ext. intros s.
  cbn [options stocks map app fold_left leg_payoff num_add num_zero Q_Numeric].
  unfold Option.payoff, Option.intrinsic, Stock.payoff, np.maximum.
  cbn [Option.position Option.option_type Option.strike Option.premium
       Stock.position Stock.entry_price py_eq_str].
  destruct (String.eqb_spec "long" "long") as [_|]; [|congruence].
  destruct (String.eqb_spec "call" "call") as [_|]; [|congruence].
  destruct (String.eqb_spec "buy" "buy") as [_|]; [|congruence].
  reflexivity.
Qed.




(** ** The grid of plot_strategy *)




(** C9 as stated fails: for the finite floats -1e308 and 1e308 the
    difference overflows, and the first grid point is NaN, not [s_min]. *)
Lemma grid_starts_with_nan_on_overflow :
  exists r : plot_result float,
    plot_strategy (L := unit) (fun _ s => s) (fun _ => inr []) (fun _ => inr tt)
                  [] [] (-0x1.1ccf385ebc8ap+1023)%float
                  0x1.1ccf385ebc8ap+1023%float = inr r /\
    finite (-0x1.1ccf385ebc8ap+1023)%float = true /\
    finite 0x1.1ccf385ebc8ap+1023%float = true /\
    PrimFloat.is_nan (nth 0 (grid r) 0%float) = true /\
    PrimFloat.eqb (nth 0 (grid r) 0%float) (-0x1.1ccf385ebc8ap+1023)%float = false.
Proof.
  eexists. split; [reflexivity|]. repeat split; vm_compute; reflexivity.
Qed.

(** Nor is the grid always in descending order when [s_min > s_max]: over
    a range of 600 subnormal steps the step is rounded up to one whole
    subnormal, point 999 overshoots [s_max], and the last step goes up. *)
Example tiny_range_not_descending :
  PrimFloat.ltb (-(600 * 0x1p-1074))%float 0%float = true /\
  PrimFloat.ltb (nth 999 (np.linspace 0%float (-(600 * 0x1p-1074))%float 1001) 0%float)
                (nth 1000 (np.linspace 0%float (-(600 * 0x1p-1074))%float 1001) 0%float)
  = true.
Proof. split; vm_compute; reflexivity. Qed.

(** C9, as the code has it, in binary64.  Whatever [s_min] and [s_max] are,
    also when [s_max <= s_min], the grid has 1001 points and ends at [s_max].
    It starts at [s_min] when [s_min] is finite and the step
    [(s_max - s_min) / 1000] did not overflow, and it is constant when the
    two ends are one finite float.  The net curve has one value per grid
    point, the sum of the legs' payoffs there.  [plot_strategy] returns
    these whenever every leg has a label and the drawing call does not
    raise; it raises what the first failing label raises. *)
Theorem plot_strategy_total_for_any_range :
  forall (L : Type) (payoff : L -> float -> float)
         (label : L -> exn + list (fragment float))
         (pyplot : list (line float) -> exn + unit)
         (options stocks : list L) (s_min s_max : float),
    List.length (np.linspace s_min s_max 1001) = 1001%nat /\
    last (np.linspace s_min s_max 1001) 0%float = s_max /\
    (finite s_min = true ->
     finite ((s_max - s_min) / 1000)%float = true ->
     PrimFloat.eqb (nth 0 (np.linspace s_min s_max 1001) 0%float) s_min = true) /\
    (finite s_min = true ->
     s_max = s_min ->
     forall i : nat, (i < 1001)%nat ->
       PrimFloat.eqb (nth i (np.linspace s_min s_max 1001) 0%float) s_min = true) /\
    (forall r : plot_result float,
        plot_strategy payoff label pyplot options stocks s_min s_max = inr r ->
        grid r = np.linspace s_min s_max 1001 /\
        List.length (net r) = 1001%nat /\
        net r = map (fun s => fold_left (fun a leg => PrimFloat.add a (payoff leg s))
                                        (options ++ stocks) 0%float)
                    (grid r)) /\
    (forall texts : list (list (fragment float)),
        labels label (options ++ stocks) = inr texts ->
        exists figure : list (line float),
          plot_strategy payoff label pyplot options stocks s_min s_max =
          match pyplot figure with
          | inl e => inl e
          | inr _ =>
              inr (mk_plot
                     (np.linspace s_min s_max 1001)
                     (map (fun s => fold_left (fun a leg => PrimFloat.add a (payoff leg s))
                                              (options ++ stocks) 0%float)
                          (np.linspace s_min s_max 1001))
                     figure)
          end) /\
    (forall e : exn,
        labels label (options ++ stocks) = inl e ->
        plot_strategy payoff label pyplot options stocks s_min s_max = inl e).
Proof.
  intros L payoff label pyplot options stocks s_min s_max.
  split; [apply linspace_length|].
  split; [apply linspace_last; lia|].
  split; [apply grid_first|].
  split; [intros Hs -> i Hi; now apply grid_constant|].
  split; [|split].
  - intros r H. apply plot_strategy_returned in H.
    destruct H as [Hg [Hn _]]. rewrite Hn, Hg.
    split; [reflexivity|]. split; [|reflexivity].
    rewrite length_map. apply linspace_length.
  - intros texts H. rewrite plot_strategy_spec, H. eexists. reflexivity.
  - intros e H. now rewrite plot_strategy_spec, H.
Qed.

Lemma reversed_range_example :
  PrimFloat.eqb (nth 0 (np.linspace 3%float 1%float 1001) 0%float) 3%float = true /\
  PrimFloat.eqb (nth 7 (np.linspace 2%float 2%float 1001) 0%float) 2%float = true.
Proof.
  split.
  - apply (proj1 (proj2 (proj2 (plot_strategy_total_for_any_range
             unit (fun _ s => s) (fun _ => inr []) (fun _ => inr tt) [] []
             3%float 1%float)))); reflexivity.
  - apply (proj1 (proj2 (proj2 (proj2 (plot_strategy_total_for_any_range
             unit (fun _ s => s) (fun _ => inr []) (fun _ => inr tt) [] []
             2%float 2%float))))).
    + reflexivity.
    + reflexivity.
    + apply Nat.ltb_lt. reflexivity.
Defined.

(** ** The figure and the export *)

(** X9.  When [plot_strategy] returns, the figure holds one line per leg,
    options first and then stocks in list order, each the payoff of that leg
    over the grid under that leg's label; then the net curve under "Net
    Payoff"; then the horizontal line at 0, which has two points.  That is
    [len(options) + len(stocks) + 2] lines, all of 1001 points but the
    last. *)
Theorem figure_series :
  forall (A : Type) (NA : Numeric A) (L : Type) (payoff : L -> A -> A)
         (label : L -> exn + list (fragment A))
         (pyplot : list (line A) -> exn + unit)
         (options stocks : list L) (s_min s_max : A) (r : plot_result A),
    plot_strategy payoff label pyplot options stocks s_min s_max = inr r ->
    (exists texts : list (list (fragment A)),
        labels label (options ++ stocks) = inr texts /\
        fig r =
        map (fun lt => mk_line (grid r) (map (payoff (fst lt)) (grid r))
                               (Some (snd lt)))
            (combine (options ++ stocks) texts) ++
        [mk_line (grid r) (net r) (Some [Text "Net Payoff"]);
         mk_line [num_zero; num_of_nat 1] [num_zero; num_zero] None]) /\
    List.length (fig r) = (List.length options + List.length stocks + 2)%nat /\
    map (fun l => List.length (ydata l)) (fig r) =
    repeat 1001%nat (List.length options + List.length stocks + 1) ++ [2%nat].
Proof.
  intros A NA L payoff label pyplot options stocks s_min s_max r H.
  apply plot_strategy_returned in H.
  destruct H as [Hg [Hn [texts [Hl Hf]]]].
  pose proof (labels_length label _ _ Hl) as Hlen. rewrite length_app in Hlen.
  split; [|split].
  - exists texts. split; [exact Hl|]. rewrite Hf, Hg. reflexivity.
  - rewrite Hf. unfold leg_lines.
    rewrite length_app, length_map, length_combine, length_app, Hlen.
    cbn [List.length]. lia.
  - rewrite Hf, Hn. unfold leg_lines. rewrite map_app, map_map.
    cbn [map ydata List.length].
    rewrite (map_ext _ (fun _ => 1001%nat))
      by (intros x; now rewrite length_map, linspace_length).
    rewrite map_zero_repeat, length_combine, length_app, Hlen, Nat.min_id.
    rewrite length_map, linspace_length, !repeat_app.
    cbn [repeat]. rewrite <- !app_assoc. reflexivity.
Qed.

Lemma figure_series_example :
  List.length
    (fig (returned (plot_session (fun _ => inr tt)
                      (mk_state [Option.mk (PStr "long") (PStr "call") 100 5]
                                [Stock.mk (PStr "buy") 95]) 0 200))) =
  (List.length [OptionLeg (Option.mk (PStr "long") (PStr "call") 100 5)] +
   List.length [StockLeg (Stock.mk (PStr "buy") 95)] + 2)%nat.
Proof.
  apply (proj1 (proj2 (figure_series Q Q_Numeric leg leg_payoff leg_label
                         (fun _ => inr tt)
                         [OptionLeg (Option.mk (PStr "long") (PStr "call") 100 5)]
                         [StockLeg (Stock.mk (PStr "buy") 95)] 0 200 _ eq_refl))).
Defined.

(** X12.  Building the export frame from what [plot_strategy] returned
    never raises: the two columns have the same length.  The frame has 1001
    rows, and row [i] pairs grid point [i] with the sum, leg by leg from 0,
    of the payoffs at that point of the legs passed in.  For a long call and
    a bought stock the rows are written out. *)
Theorem export_frame_rows :
  (forall (A : Type) (NA : Numeric A) (L : Type) (payoff : L -> A -> A)
          (label : L -> exn + list (fragment A))
          (pyplot : list (line A) -> exn + unit)
          (options stocks : list L) (s_min s_max : A) (r : plot_result A),
      plot_strategy payoff label pyplot options stocks s_min s_max = inr r ->
      export_frame (grid r) (net r) =
      inr (map (fun s => (s, fold_left (fun a leg => num_add a (payoff leg s))
                                       (options ++ stocks) num_zero))
               (np.linspace s_min s_max 1001)) /\
      List.length (map (fun s => (s, fold_left (fun a leg => num_add a (payoff leg s))
                                               (options ++ stocks) num_zero))
                       (np.linspace s_min s_max 1001)) = 1001%nat) /\
  (forall (pyplot : list (line Q) -> exn + unit) (K P E s_min s_max : Q)
          (r : plot_result Q),
      plot_session pyplot
        (mk_state [Option.mk (PStr "long") (PStr "call") K P]
                  [Stock.mk (PStr "buy") E]) s_min s_max = inr r ->
      export_frame (grid r) (net r) =
      inr (map (fun s => (s, 0 + (Qmax (s - K) 0 - P) + (s - E))) (grid r))).
Proof.
  assert (Hcombine : forall (A : Type) (f : A -> A) (l : list A),
             combine l (map f l) = map (fun s => (s, f s)) l)
    by (intros A f l; induction l as [|s l IH]; cbn; [reflexivity|now f_equal]).
  split.
  - intros A NA L payoff label pyplot options stocks s_min s_max r H.
    apply plot_strategy_returned in H. destruct H as [Hg [Hn _]].
    rewrite Hn, Hg. unfold export_frame.
    rewrite !length_map, Nat.eqb_refl, Hcombine, linspace_length.
    split; reflexivity.
  - intros pyplot K P E s_min s_max r H.
    rewrite (call_and_stock_net _ _ _ _ _ _ _ H). unfold export_frame.
    now rewrite length_map, Nat.eqb_refl, Hcombine.
Qed.

Lemma export_frame_example :
  export_frame
    (grid (returned (plot_session (fun _ => inr tt)
                       (mk_state [Option.mk (PStr "long") (PStr "call") 100 5]
                                 [Stock.mk (PStr "buy") 95]) 0 200)))
    (net (returned (plot_session (fun _ => inr tt)
                      (mk_state [Option.mk (PStr "long") (PStr "call") 100 5]
                                [Stock.mk (PStr "buy") 95]) 0 200))) =
  inr (map (fun s => (s, 0 + (Qmax (s - 100) 0 - 5) + (s - 95)))
           (grid (returned (plot_session (fun _ => inr tt)
                              (mk_state [Option.mk (PStr "long") (PStr "call") 100 5]
                                        [Stock.mk (PStr "buy") 95]) 0 200)))).
Proof.
  apply (proj2 export_frame_rows (fun _ => inr tt) 100 5 95 0 200).
  reflexivity.
Defined.

(** ** Save and load *)

Lemma load_row_option_row (o : Option.t) (st : session_state) :
  load_row (option_row o) st = (mk_state (options st ++ [o]) (stocks st), inr tt).
Proof. destruct o. reflexivity. Qed.

Lemma load_row_stock_row (s : Stock.t) (st : session_state) :
  load_row (stock_row s) st = (mk_state (options st) (stocks st ++ [s]), inr tt).
Proof. destruct s. reflexivity. Qed.

Lemma load_rows_app (df1 df2 : list Row.t) (st st1 : session_state) :
  load_rows df1 st = (st1, inr tt) ->
  load_rows (df1 ++ df2) st = load_rows df2 st1.
Proof.
  revert st. induction df1 as [|row df1 IH]; intros st H.
  - cbn in H. injection H as ->. reflexivity.
  - cbn [app load_rows] in *. unfold bind in *.
    destruct (load_row row st) as [st' [e|[]]]; [discriminate|].
    now apply IH.
Qed.

Lemma load_rows_options (os : list Option.t) (st : session_state) :
  load_rows (map option_row os) st =
  (mk_state (options st ++ os) (stocks st), inr tt).
Proof.
  revert st. induction os as [|o os IH]; intros st.
  - cbn. rewrite app_nil_r. now destruct st.
  - cbn [map load_rows]. unfold bind. rewrite load_row_option_row, IH.
    cbn [options stocks]. now rewrite <- app_assoc.
Qed.

Lemma load_rows_stocks (ss : list Stock.t) (st : session_state) :
  load_rows (map stock_row ss) st =
  (mk_state (options st) (stocks st ++ ss), inr tt).
Proof.
  revert st. induction ss as [|s ss IH]; intros st.
  - cbn. rewrite app_nil_r. now destruct st.
  - cbn [map load_rows]. unfold bind. rewrite load_row_stock_row, IH.
    cbn [options stocks]. now rewrite <- app_assoc.
Qed.

(** Loading what Save wrote gives back the two lists, whatever the session
    held before. *)
Lemma load_after_save (st st0 : session_state) :
  load_handler (fst (save_handler st)) st0 = (st, Success "Loaded!").
Proof.
  unfold load_handler, load_body, save_handler, read_csv. cbn [fst].
  unfold bind at 1. unfold ret at 1.
  unfold bind at 1. unfold set_options at 1.
  unfold bind at 1. unfold set_stocks at 1. cbn [options stocks].
  rewrite (load_rows_app _ _ _ _ (load_rows_options (options st) _)).
  rewrite load_rows_stocks. cbn [options stocks app].
  now destruct st.
Qed.

(** C4.  For a portfolio as the data model has it (directions and kinds
    from their enumerations, numeric attributes not negative), loading the
    file that Save wrote reconstructs it: the same legs, in the same order,
    with the same attribute values; the load reports success.  This holds
    whatever the session held before the load. *)
Theorem save_then_load_roundtrip :
  forall st st0 : session_state,
    valid_portfolio st ->
    load_handler (fst (save_handler st)) st0 = (st, Success "Loaded!").
Proof. intros st st0 _. apply load_after_save. Qed.

Lemma roundtrip_example :
  load_handler
    (fst (save_handler
            (mk_state [Option.mk (PStr "long") (PStr "call") 100 5;
                       Option.mk (PStr "short") (PStr "put") 90 (3 # 2)]
                      [Stock.mk (PStr "buy") 95])))
    (mk_state [] [Stock.mk (PStr "sell") 1]) =
  (mk_state [Option.mk (PStr "long") (PStr "call") 100 5;
             Option.mk (PStr "short") (PStr "put") 90 (3 # 2)]
            [Stock.mk (PStr "buy") 95],
   Success "Loaded!").
Proof.
  apply save_then_load_roundtrip.
  split; repeat constructor; cbn; auto; discriminate.
Defined.

(** ** Rows that Load accepts and rows it rejects *)

(** C5 as stated fails: a row of type "bond" raises nothing, it is loaded as
    a stock leg. *)
Lemma bond_row_loads_as_stock :
  load_handler
    (Table [Row.mk (PStr "bond") (PStr "buy") (PStr EmptyString) (PNum 100) (PNum 0)])
    (mk_state [] []) =
  (mk_state [] [Stock.mk (PStr "buy") 100], Success "Loaded!").
Proof. reflexivity. Qed.

(** Neither are the direction and the kind checked: the words are stored as
    they come. *)
Example unknown_words_load :
  load_handler
    (Table [Row.mk (PStr "option") (PStr "sideways") (PStr "swap") (PNum 100) (PNum 5)])
    (mk_state [] []) =
  (mk_state [Option.mk (PStr "sideways") (PStr "swap") 100 5] [], Success "Loaded!").
Proof. reflexivity. Qed.

(** C5, as the code has it.  What Load does with one row depends on two
    things only: whether its type is "option", and whether [float()] accepts
    the numeric cells it reads.  Text in [strike_or_entry] raises
    [ValueError], and so does text in [premium] of an option row, in both
    cases before any leg is built.  Otherwise a leg is built: an option from
    a row of type "option", a stock from a row of any other type (its
    [premium] is not read), with [position] and [option_type] stored
    unchecked. *)
Theorem load_row_outcome :
  forall (row : Row.t) (st : session_state),
    (forall s : string,
        Row.strike_or_entry row = PStr s ->
        load_row row st = (st, inl ValueError)) /\
    (forall s : string,
        py_eq_str (Row.type_ row) "option" = true ->
        Row.premium row = PStr s ->
        load_row row st = (st, inl ValueError)) /\
    (forall k p : Q,
        py_eq_str (Row.type_ row) "option" = true ->
        Row.strike_or_entry row = PNum k ->
        Row.premium row = PNum p ->
        load_row row st =
        (mk_state
           (options st ++ [Option.mk (Row.position row) (Row.option_type row) k p])
           (stocks st),
         inr tt)) /\
    (forall k : Q,
        py_eq_str (Row.type_ row) "option" = false ->
        Row.strike_or_entry row = PNum k ->
        load_row row st =
        (mk_state (options st) (stocks st ++ [Stock.mk (Row.position row) k]),
         inr tt)).
Proof.
  intros [ty pos typ k p] st. cbn [Row.strike_or_entry Row.premium Row.type_
                                   Row.position Row.option_type].
  unfold load_row, Option.init, Stock.init, bind, lift.
  cbn [Row.strike_or_entry Row.premium Row.type_ Row.position Row.option_type].
  repeat split.
  - intros s ->. destruct (py_eq_str ty "option"); reflexivity.
  - intros s -> ->. destruct k; reflexivity.
  - intros k' p' -> -> ->. reflexivity.
  - intros k' -> ->. reflexivity.
Qed.

Lemma load_row_outcome_example :
  load_row (Row.mk (PStr "stock") (PStr "buy") (PStr EmptyString) (PStr "abc") (PNum 0))
           (mk_state [] []) =
  (mk_state [] [], inl ValueError).
Proof.
  apply (proj1 (load_row_outcome
                  (Row.mk (PStr "stock") (PStr "buy") (PStr EmptyString) (PStr "abc") (PNum 0))
                  (mk_state [] [])) "abc"%string).
  reflexivity.
Defined.

(** ** A load that fails *)

(** A row that raises leaves the lists as they were before that row. *)
Lemma load_row_raise_keeps_state (row : Row.t) (st st' : session_state) (e : exn) :
  load_row row st = (st', inl e) -> st' = st.
Proof.
  unfold load_row, bind, lift.
  destruct (py_eq_str (Row.type_ row) "option").
  - destruct (Option.init _ _ _ _); cbn; intros H; [now injection H|discriminate].
  - destruct (Stock.init _ _); cbn; intros H; [now injection H|discriminate].
Qed.

(** C6.  The code does not keep what the claim asks for: a row that cannot
    be converted is met after the two lists were emptied inside the [try],
    so the failed load reports its error and the option held before it is
    gone. *)
Lemma failed_load_empties_portfolio :
  load_handler
    (Table [Row.mk (PStr "option") (PStr "long") (PStr "call") (PStr "abc") (PNum 5)])
    (mk_state [Option.mk (PStr "long") (PStr "call") 100 5] []) =
  (mk_state [] [], Error ValueError) /\
  mk_state [] [] <> mk_state [Option.mk (PStr "long") (PStr "call") 100 5] [].
Proof. split; [reflexivity|discriminate]. Qed.

(** How far the loss goes.  A load always reports its failure.  When the
    file cannot be read, the exception comes before the two lists are reset
    and the portfolio is left exactly as it was.  When a row raises, the
    portfolio held before is lost and what remains are the legs of the rows
    before that one. *)
Lemma failed_load_outcome :
  forall st : session_state,
    (forall e : exn, load_handler (Unreadable e) st = (st, Error e)) /\
    (forall (before after : list Row.t) (row : Row.t)
            (st1 : session_state) (e : exn),
        load_rows before (mk_state [] []) = (st1, inr tt) ->
        snd (load_row row st1) = inl e ->
        load_handler (Table (before ++ row :: after)) st = (st1, Error e)).
Proof.
  intros st. split; [reflexivity|].
  intros before after row st1 e Hbefore Hrow.
  unfold load_handler, load_body, read_csv.
  unfold bind at 1. unfold ret at 1.
  unfold bind at 1. unfold set_options at 1.
  unfold bind at 1. unfold set_stocks at 1. cbn [options stocks].
  rewrite (load_rows_app _ _ _ _ Hbefore).
  cbn [load_rows]. unfold bind.
  destruct (load_row row st1) as [st' [e'|u]] eqn:E; cbn in Hrow; [|discriminate].
  injection Hrow as ->.
  now rewrite (load_row_raise_keeps_state _ _ _ _ E).
Qed.

Lemma failed_load_outcome_example :
  load_handler
    (Table ([Row.mk (PStr "stock") (PStr "sell") (PStr EmptyString) (PNum 40) (PNum 0)] ++
            Row.mk (PStr "option") (PStr "long") (PStr "put") (PNum 90) (PStr "five")
            :: [Row.mk (PStr "stock") (PStr "buy") (PStr EmptyString) (PNum 95) (PNum 0)]))
    (mk_state [Option.mk (PStr "long") (PStr "call") 100 5] []) =
  (mk_state [] [Stock.mk (PStr "sell") 40], Error ValueError).
Proof.
  apply (proj2 (failed_load_outcome
                  (mk_state [Option.mk (PStr "long") (PStr "call") 100 5] []))).
  - reflexivity.
  - reflexivity.
Defined.

(** ** Remove *)

Lemma py_del_in_range {A : Type} (l : list A) (i : Z) :
  (0 <= i < Z.of_nat (List.length l))%Z ->
  py_del l i = inr (without (Z.to_nat i) l).
Proof.
  intros H. unfold py_del.
  destruct (Z.ltb_spec i 0); [lia|].
  destruct (Z.leb_spec 0 i); [|lia].
  destruct (Z.ltb_spec i (Z.of_nat (List.length l))); [|lia].
  reflexivity.
Qed.

Lemma py_del_from_end {A : Type} (l : list A) (i : Z) :
  (- Z.of_nat (List.length l) <= i < 0)%Z ->
  py_del l i = inr (without (Z.to_nat (i + Z.of_nat (List.length l))) l).
Proof.
  intros H. unfold py_del.
  destruct (Z.ltb_spec i 0); [|lia].
  destruct (Z.leb_spec 0 (i + Z.of_nat (List.length l))); [|lia].
  destruct (Z.ltb_spec (i + Z.of_nat (List.length l)) (Z.of_nat (List.length l))); [|lia].
  reflexivity.
Qed.

Lemma py_del_out_of_range {A : Type} (l : list A) (i : Z) :
  (i < - Z.of_nat (List.length l) \/ Z.of_nat (List.length l) <= i)%Z ->
  py_del l i = inl IndexError.
Proof.
  intros H. unfold py_del.
  destruct (Z.ltb_spec i 0).
  - destruct (Z.leb_spec 0 (i + Z.of_nat (List.length l))); [lia|reflexivity].
  - destruct (Z.leb_spec 0 i); [|lia].
    destruct (Z.ltb_spec i (Z.of_nat (List.length l))); [lia|reflexivity].
Qed.

Lemma without_map {A B : Type} (f : A -> B) (i : nat) (l : list A) :
  without i (map f l) = map f (without i l).
Proof. unfold without. now rewrite map_app, firstn_map, skipn_map. Qed.

Lemma without_app_l {A : Type} (i : nat) (l1 l2 : list A) :
  (i < List.length l1)%nat -> without i (l1 ++ l2) = without i l1 ++ l2.
Proof.
  intros H. unfold without. rewrite firstn_app, skipn_app.
  replace (i - List.length l1)%nat with 0%nat by lia.
  replace (S i - List.length l1)%nat with 0%nat by lia.
  cbn [firstn skipn]. now rewrite app_nil_r, app_assoc.
Qed.

Lemma without_app_r {A : Type} (k : nat) (l1 l2 : list A) :
  without (List.length l1 + k) (l1 ++ l2) = l1 ++ without k l2.
Proof.
  unfold without. rewrite firstn_app, skipn_app.
  rewrite firstn_all2 by lia. rewrite skipn_all2 by lia.
  replace (List.length l1 + k - List.length l1)%nat with k by lia.
  replace (S (List.length l1 + k) - List.length l1)%nat with (S k) by lia.
  cbn [app]. now rewrite <- app_assoc.
Qed.

Lemma legs_of_length (st : session_state) :
  List.length (legs_of st) = (List.length (options st) + List.length (stocks st))%nat.
Proof. unfold legs_of, all_legs. now rewrite length_app, !length_map. Qed.

Lemma without_length {A : Type} (i : nat) (l : list A) :
  (i < List.length l)%nat -> S (List.length (without i l)) = List.length l.
Proof.
  intros H. unfold without.
  rewrite length_app, length_firstn, length_skipn. lia.
Qed.

(** The outcome of Remove for an index of the combined order. *)
Lemma remove_handler_in_range (remove_idx : Z) (st : session_state) :
  (0 <= remove_idx < Z.of_nat (List.length (legs_of st)))%Z ->
  exists st' : session_state,
    remove_handler remove_idx st = inr st' /\
    legs_of st' = without (Z.to_nat remove_idx) (legs_of st) /\
    (options st' = options st \/ stocks st' = stocks st).
Proof.
  destruct st as [os ss]. rewrite legs_of_length. cbn [options stocks].
  intros H. unfold remove_handler. cbn [options stocks].
  destruct (Z.ltb_spec remove_idx (Z.of_nat (List.length os))) as [Hlt|Hge].
  - rewrite py_del_in_range by lia.
    eexists; split; [reflexivity|]. split; [|now right].
    unfold legs_of, all_legs. cbn [options stocks].
    rewrite without_app_l by (rewrite length_map; lia).
    now rewrite without_map.
  - rewrite py_del_in_range by lia.
    eexists; split; [reflexivity|]. split; [|now left].
    unfold legs_of, all_legs. cbn [options stocks].
    replace (Z.to_nat remove_idx)
      with (List.length (map OptionLeg os) +
            Z.to_nat (remove_idx - Z.of_nat (List.length os)))%nat
      by (rewrite length_map; lia).
    now rewrite without_app_r, without_map.
Qed.

(** [del] counts a negative index from the end: the index -1, which the
    select box never offers, deletes the last option. *)
Example remove_minus_one_succeeds :
  ~ (0 <= -1 < 1)%Z /\
  remove_handler (-1) (mk_state [Option.mk (PStr "long") (PStr "call") 100 5] []) =
  inr (mk_state [] []).
Proof. split; [lia|reflexivity]. Qed.

(** The handler on every integer, offered or not.  With [n] options and [total] legs in the
    options-then-stocks order, removing at [index] raises [IndexError]
    exactly when [index < -n] or [index >= total].  For [0 <= index < total]
    it removes the leg at that position of the combined order and no other.
    For [-n <= index < 0] it removes the option at [index + n], counting from
    the end of the options, and leaves the stocks alone. *)
Lemma remove_handler_outcome :
  forall (remove_idx : Z) (st : session_state),
    (remove_handler remove_idx st = inl IndexError <->
     (remove_idx < - Z.of_nat (List.length (options st)) \/
      Z.of_nat (List.length (legs_of st)) <= remove_idx)%Z) /\
    ((0 <= remove_idx < Z.of_nat (List.length (legs_of st)))%Z ->
     exists st' : session_state,
       remove_handler remove_idx st = inr st' /\
       legs_of st' = without (Z.to_nat remove_idx) (legs_of st)) /\
    ((- Z.of_nat (List.length (options st)) <= remove_idx < 0)%Z ->
     remove_handler remove_idx st =
     inr (mk_state
            (without (Z.to_nat (remove_idx + Z.of_nat (List.length (options st))))
                     (options st))
            (stocks st))).
Proof.
  intros i [os ss]. rewrite legs_of_length. cbn [options stocks].
  unfold remove_handler. cbn [options stocks].
  set (n := Z.of_nat (List.length os)).
  assert (Hin : (0 <= i < n + Z.of_nat (List.length ss))%Z ->
                exists st', (if (i <? n)%Z
                             then match py_del os i with
                                  | inl e => inl e
                                  | inr l => inr (mk_state l ss)
                                  end
                             else match py_del ss (i - n) with
                                  | inl e => inl e
                                  | inr l => inr (mk_state os l)
                                  end) = inr st' /\
                            legs_of st' = without (Z.to_nat i) (legs_of (mk_state os ss))).
  { intros H. destruct (Z.ltb_spec i n) as [Hlt|Hge].
    - rewrite py_del_in_range by (fold n; lia).
      eexists; split; [reflexivity|].
      unfold legs_of, all_legs. cbn [options stocks].
      rewrite without_app_l by (rewrite length_map; lia).
      now rewrite without_map.
    - rewrite py_del_in_range by lia.
      eexists; split; [reflexivity|].
      unfold legs_of, all_legs. cbn [options stocks].
      replace (Z.to_nat i) with (List.length (map OptionLeg os) + Z.to_nat (i - n))%nat
        by (rewrite length_map; lia).
      now rewrite without_app_r, without_map. }
  assert (Hneg : (- n <= i < 0)%Z ->
                 (if (i <? n)%Z
                  then match py_del os i with
                       | inl e => inl e
                       | inr l => inr (mk_state l ss)
                       end
                  else match py_del ss (i - n) with
                       | inl e => inl e
                       | inr l => inr (mk_state os l)
                       end) = inr (mk_state (without (Z.to_nat (i + n)) os) ss)).
  { intros H. destruct (Z.ltb_spec i n); [|lia].
    now rewrite py_del_from_end by (fold n; lia). }
  split; [|split; [|exact Hneg]].
  - split.
    + intros Hfail.
      destruct (Z.lt_ge_cases i (- n)) as [|Hlow]; [now left|].
      destruct (Z.lt_ge_cases i (n + Z.of_nat (List.length ss))) as [Hhigh|]; [|right; lia].
      exfalso. destruct (Z.lt_ge_cases i 0) as [Hi|Hi].
      * rewrite Hneg in Hfail by lia. discriminate.
      * destruct (Hin (conj Hi Hhigh)) as [st' [E _]].
        rewrite E in Hfail. discriminate.
    + intros [Hlow|Hhigh].
      * destruct (Z.ltb_spec i n); [|lia].
        now rewrite py_del_out_of_range by (fold n; lia).
      * destruct (Z.ltb_spec i n); [lia|].
        now rewrite py_del_out_of_range by lia.
  - intros H. apply Hin. lia.
Qed.



(** ** More on the payoff of one leg *)

Lemma intrinsic_nonneg (o : Option.t) (S : Q) : 0 <= Option.intrinsic o S.
Proof.
  unfold Option.intrinsic, np.maximum.
  destruct (py_eq_str _ _); apply Q.le_max_r.
Qed.

(** X3.  A long option never loses more than its premium, and an option that
    is not long (short, or any unrecognised direction) never gains more than
    its premium, whatever the price and the kind. *)
Theorem option_loss_and_gain_bounds :
  forall (o : Option.t) (S : Q),
    (py_eq_str (Option.position o) "long" = true ->
     - Option.premium o <= Option.payoff o S) /\
    (py_eq_str (Option.position o) "long" = false ->
     Option.payoff o S <= Option.premium o).
Proof.
  intros o S. pose proof (intrinsic_nonneg o S) as H.
  unfold Option.payoff. split; intros ->; lra.
Qed.

Lemma option_bounds_example :
  - 5 <= Option.payoff (Option.mk (PStr "long") (PStr "put") 100 5) 250 /\
  Option.payoff (Option.mk (PStr "short") (PStr "call") 100 5) 250 <= 5.
Proof.
  split.
  - apply (proj1 (option_loss_and_gain_bounds
                    (Option.mk (PStr "long") (PStr "put") 100 5) 250)).
    reflexivity.
  - apply (proj2 (option_loss_and_gain_bounds
                    (Option.mk (PStr "short") (PStr "call") 100 5) 250)).
    reflexivity.
Defined.

(** X4.  The kind is matched against "call" only: an option whose
    option_type is any other string (a different spelling or case included)
    has the intrinsic value of a put, [max(K - S, 0)], and a long one pays
    that minus the premium. *)
Theorem unrecognised_kind_is_put :
  forall (kind : string) (pos : pyval) (K P S : Q),
    kind <> "call"%string ->
    Option.intrinsic (Option.mk pos (PStr kind) K P) S = Qmax (K - S) 0 /\
    Option.payoff (Option.mk (PStr "long") (PStr kind) K P) S = Qmax (K - S) 0 - P.
Proof.
  intros kind pos K P S Hk.
  unfold Option.payoff, Option.intrinsic, np.maximum.
  cbn [Option.option_type Option.position Option.strike Option.premium py_eq_str].
  destruct (String.eqb_spec kind "call"); [contradiction|].
  destruct (String.eqb_spec "long" "long") as [_|]; [|congruence].
  split; reflexivity.
Qed.

Lemma capitalised_call_is_put :
  Option.intrinsic (Option.mk (PStr "long") (PStr "Call") 100 5) 120 = Qmax (100 - 120) 0 /\
  Option.payoff (Option.mk (PStr "long") (PStr "Call") 100 5) 120 = Qmax (100 - 120) 0 - 5.
Proof.
  apply (unrecognised_kind_is_put "Call" (PStr "long") 100 5 120).
  discriminate.
Defined.

(** X6.  The payoff of a long call never falls when the price rises, and
    the payoff of a long put never rises. *)
Theorem long_payoff_monotone :
  forall K P S1 S2 : Q,
    S1 <= S2 ->
    Option.payoff (Option.mk (PStr "long") (PStr "call") K P) S1 <=
    Option.payoff (Option.mk (PStr "long") (PStr "call") K P) S2 /\
    Option.payoff (Option.mk (PStr "long") (PStr "put") K P) S2 <=
    Option.payoff (Option.mk (PStr "long") (PStr "put") K P) S1.
Proof.
  intros K P S1 S2 H.
  unfold Option.payoff, Option.intrinsic, np.maximum; cbn.
  assert (Hc : Qmax (S1 - K) 0 <= Qmax (S2 - K) 0)
    by (apply Q.max_le_compat_r; lra).
  assert (Hp : Qmax (K - S2) 0 <= Qmax (K - S1) 0)
    by (apply Q.max_le_compat_r; lra).
  split; lra.
Qed.

Lemma long_payoff_monotone_example :
  Option.payoff (Option.mk (PStr "long") (PStr "call") 100 5) 90 <=
  Option.payoff (Option.mk (PStr "long") (PStr "call") 100 5) 120 /\
  Option.payoff (Option.mk (PStr "long") (PStr "put") 100 5) 120 <=
  Option.payoff (Option.mk (PStr "long") (PStr "put") 100 5) 90.
Proof.
  apply (long_payoff_monotone 100 5 90 120). discriminate.
Defined.

(** ** Add *)

Lemma add_option_handler_run (pos typ : string) (k p : Q) (st : session_state) :
  add_option_handler pos typ k p st =
  (mk_state (options st ++ [Option.mk (PStr pos) (PStr typ) k p]) (stocks st),
   inr tt).
Proof. reflexivity. Qed.

Lemma add_stock_handler_run (pos : string) (ep : Q) (st : session_state) :
  add_stock_handler pos ep st =
  (mk_state (options st) (stocks st ++ [Stock.mk (PStr pos) ep]), inr tt).
Proof. reflexivity. Qed.

(** X13.  Neither Add button can raise.  In the combined order that the
    Remove box and the figure use, a new stock goes to the very end, while a
    new option goes to the end of the options, in front of every stock: the
    legs before it keep their index and every stock moves up by one. *)
Theorem added_leg_position :
  forall (st : session_state),
    (forall (pos typ : string) (k p : Q),
        snd (add_option_handler pos typ k p st) = inr tt /\
        legs_of (fst (add_option_handler pos typ k p st)) =
        firstn (List.length (options st)) (legs_of st) ++
        OptionLeg (Option.mk (PStr pos) (PStr typ) k p) ::
        skipn (List.length (options st)) (legs_of st)) /\
    (forall (pos : string) (ep : Q),
        snd (add_stock_handler pos ep st) = inr tt /\
        legs_of (fst (add_stock_handler pos ep st)) =
        legs_of st ++ [StockLeg (Stock.mk (PStr pos) ep)]).
Proof.
  intros st. split.
  - intros pos typ k p. rewrite add_option_handler_run. cbn [fst snd].
    split; [reflexivity|].
    unfold legs_of, all_legs. cbn [options stocks].
    rewrite firstn_app, skipn_app, length_map, Nat.sub_diag.
    rewrite firstn_all2 by (rewrite length_map; lia).
    rewrite skipn_all2 by (rewrite length_map; lia).
    cbn [firstn skipn app].
    rewrite map_app, app_nil_r, <- app_assoc. reflexivity.
  - intros pos ep. rewrite add_stock_handler_run. cbn [fst snd].
    split; [reflexivity|].
    unfold legs_of, all_legs. cbn [options stocks].
    now rewrite map_app, app_assoc.
Qed.

Lemma without_last {A : Type} (l : list A) (a : A) :
  without (List.length l) (l ++ [a]) = l.
Proof.
  unfold without. rewrite firstn_app, skipn_app, firstn_all, Nat.sub_diag.
  rewrite skipn_all2 by lia.
  replace (S (List.length l) - List.length l)%nat with 1%nat by lia.
  cbn. now rewrite !app_nil_r.
Qed.

(** X14.  Removing the leg that was just added gives back the session as it
    was: index [len(options)] after Add Option, the last index of the
    combined order after Add Stock. *)
Theorem remove_after_add_restores :
  forall (st : session_state),
    (forall (pos typ : string) (k p : Q),
        remove_handler (Z.of_nat (List.length (options st)))
                       (fst (add_option_handler pos typ k p st)) = inr st) /\
    (forall (pos : string) (ep : Q),
        remove_handler (Z.of_nat (List.length (legs_of st)))
                       (fst (add_stock_handler pos ep st)) = inr st).
Proof.
  intros [os ss]. split.
  - intros pos typ k p. rewrite add_option_handler_run.
    cbn [fst options stocks]. unfold remove_handler. cbn [options stocks].
    rewrite length_app. cbn [List.length].
    destruct (Z.ltb_spec (Z.of_nat (List.length os))
                         (Z.of_nat (List.length os + 1))); [|lia].
    rewrite py_del_in_range by (rewrite length_app; cbn [List.length]; lia).
    now rewrite Nat2Z.id, without_last.
  - intros pos ep. rewrite add_stock_handler_run, legs_of_length.
    cbn [fst options stocks]. unfold remove_handler. cbn [options stocks].
    destruct (Z.ltb_spec (Z.of_nat (List.length os + List.length ss))
                         (Z.of_nat (List.length os))); [lia|].
    replace (Z.of_nat (List.length os + List.length ss) - Z.of_nat (List.length os))%Z
      with (Z.of_nat (List.length ss)) by lia.
    rewrite py_del_in_range by (rewrite length_app; cbn [List.length]; lia).
    now rewrite Nat2Z.id, without_last.
Qed.

(** ** What the buttons keep *)

Lemma Forall_without {A : Type} (P : A -> Prop) (i : nat) (l : list A) :
  Forall P l -> Forall P (without i l).
Proof.
  intros H. unfold without. apply Forall_app. split.
  - rewrite <- (firstn_skipn i l) in H. now apply Forall_app in H.
  - rewrite <- (firstn_skipn (S i) l) in H. now apply Forall_app in H.
Qed.

Lemma py_del_result {A : Type} (l l' : list A) (i : Z) :
  py_del l i = inr l' -> exists j : nat, l' = without j l.
Proof.
  unfold py_del. destruct (_ && _)%bool; [|discriminate].
  intros H. injection H as <-. eexists. reflexivity.
Qed.

(** X15.  A portfolio that satisfies the data model (directions and kinds
    from the select boxes, numbers not negative) still satisfies it after
    Add Option and Add Stock with values the form can give, after any Remove
    that succeeds, and after Save followed by Load. *)
Theorem buttons_keep_portfolio_valid :
  forall st : session_state,
    valid_portfolio st ->
    (forall (pos typ : string) (k p : Q),
        In pos position_choices -> In typ type_choices -> 0 <= k -> 0 <= p ->
        valid_portfolio (fst (add_option_handler pos typ k p st))) /\
    (forall (pos : string) (ep : Q),
        In pos stock_position_choices -> 0 <= ep ->
        valid_portfolio (fst (add_stock_handler pos ep st))) /\
    (forall (remove_idx : Z) (st' : session_state),
        remove_handler remove_idx st = inr st' -> valid_portfolio st') /\
    (forall st0 : session_state,
        valid_portfolio (fst (load_handler (fst (save_handler st)) st0))).
Proof.
  intros st [Hos Hss]. repeat split.
  - cbn [fst options]. apply Forall_app. split; [exact Hos|].
    constructor; [|constructor].
    unfold valid_option, position_choices, type_choices in *. cbn in *.
    intuition (subst; auto).
  - exact Hss.
  - exact Hos.
  - cbn [fst stocks]. apply Forall_app. split; [exact Hss|].
    constructor; [|constructor].
    unfold valid_stock, stock_position_choices in *. cbn in *.
    intuition (subst; auto).
  - unfold remove_handler in H.
    destruct (_ <? _)%Z.
    + destruct (py_del (options st) remove_idx) as [e|l] eqn:E; [discriminate|].
      injection H as <-. cbn [options].
      destruct (py_del_result _ _ _ E) as [j ->]. now apply Forall_without.
    + destruct (py_del (stocks st) _) as [e|l] eqn:E; [discriminate|].
      injection H as <-. exact Hos.
  - unfold remove_handler in H.
    destruct (_ <? _)%Z.
    + destruct (py_del (options st) remove_idx) as [e|l] eqn:E; [discriminate|].
      injection H as <-. exact Hss.
    + destruct (py_del (stocks st) _) as [e|l] eqn:E; [discriminate|].
      injection H as <-. cbn [stocks].
      destruct (py_del_result _ _ _ E) as [j ->]. now apply Forall_without.
  - rewrite load_after_save. exact Hos.
  - rewrite load_after_save. exact Hss.
Qed.

Lemma buttons_keep_valid_example :
  valid_portfolio
    (fst (add_option_handler "short" "put" 90 (3 # 2)
            (mk_state [Option.mk (PStr "long") (PStr "call") 100 5]
                      [Stock.mk (PStr "buy") 95]))).
Proof.
  apply (proj1 (buttons_keep_portfolio_valid
                  (mk_state [Option.mk (PStr "long") (PStr "call") 100 5]
                            [Stock.mk (PStr "buy") 95])
                  ltac:(split; repeat constructor; cbn; auto; discriminate))).
  - right. left. reflexivity.
  - right. left. reflexivity.
  - discriminate.
  - discriminate.
Defined.

(** ** More on Load *)

Lemma load_handler_table (rows : list Row.t) (st : session_state) :
  load_handler (Table rows) st =
  match load_rows rows (mk_state [] []) with
  | (st', inr _) => (st', Success "Loaded!")
  | (st', inl e) => (st', Error e)
  end.
Proof. reflexivity. Qed.

(** X16.  A file that can be read decides the outcome of Load alone:
    whatever the session held before, the resulting lists and message are
    the same.  Loading the same file a second time changes nothing, whether
    the file can be read or not. *)
Theorem load_replaces_wholesale :
  (forall (rows : list Row.t) (st st' : session_state),
      load_handler (Table rows) st = load_handler (Table rows) st') /\
  (forall (file : csv_file) (st : session_state),
      load_handler file (fst (load_handler file st)) = load_handler file st).
Proof.
  split.
  - intros rows st st'. now rewrite !load_handler_table.
  - intros [e|rows] st; [reflexivity|]. now rewrite !load_handler_table.
Qed.

Lemma load_row_converting (row : Row.t) (st : session_state) :
  row_converts row = true ->
  exists (os : list Option.t) (ss : list Stock.t),
    load_row row st = (mk_state (options st ++ os) (stocks st ++ ss), inr tt) /\
    map option_row os = filter is_option_row [row] /\
    map stock_row ss =
    map as_stock_row (filter (fun r => negb (is_option_row r)) [row]).
Proof.
  destruct row as [ty pos typ k p].
  unfold row_converts, is_option_row, load_row, Option.init, Stock.init, bind, lift.
  cbn [Row.type_ Row.position Row.option_type Row.strike_or_entry Row.premium
       filter negb].
  destruct k as [s|k]; [discriminate|]. cbn [is_number andb py_float].
  destruct (py_eq_str ty "option") eqn:Ety; cbn [negb orb].
  - destruct p as [s|p]; [discriminate|]. intros _.
    exists [Option.mk pos typ k p], []. cbn [py_float].
    rewrite app_nil_r. repeat split.
    unfold option_row; cbn. destruct ty as [t|q]; [|discriminate].
    cbn in Ety. apply String.eqb_eq in Ety. now subst.
  - intros _. exists [], [Stock.mk pos k]. rewrite app_nil_r. repeat split.
Qed.

Lemma load_row_rejecting (row : Row.t) (st : session_state) :
  row_converts row = false -> load_row row st = (st, inl ValueError).
Proof.
  destruct row as [ty pos typ k p].
  unfold row_converts, is_option_row, load_row, Option.init, Stock.init, bind, lift.
  cbn [Row.type_ Row.position Row.option_type Row.strike_or_entry Row.premium].
  destruct k as [s|k]; cbn [is_number andb py_float].
  - intros _. destruct (py_eq_str ty "option"); reflexivity.
  - destruct (py_eq_str ty "option"); cbn [negb orb]; [|discriminate].
    destruct p as [s|p]; [reflexivity|discriminate].
Qed.

Lemma load_rows_converting (rows : list Row.t) :
  forall st : session_state,
    forallb row_converts rows = true ->
    exists (os : list Option.t) (ss : list Stock.t),
      load_rows rows st = (mk_state (options st ++ os) (stocks st ++ ss), inr tt) /\
      map option_row os = filter is_option_row rows /\
      map stock_row ss =
      map as_stock_row (filter (fun r => negb (is_option_row r)) rows).
Proof.
  induction rows as [|row rows IH]; intros st H.
  - exists [], []. cbn. rewrite !app_nil_r. now destruct st.
  - cbn [forallb] in H. apply andb_prop in H. destruct H as [Hrow Hrows].
    destruct (load_row_converting row st Hrow) as [os1 [ss1 [E1 [Ho1 Hs1]]]].
    destruct (IH (mk_state (options st ++ os1) (stocks st ++ ss1)) Hrows)
      as [os2 [ss2 [E2 [Ho2 Hs2]]]].
    exists (os1 ++ os2), (ss1 ++ ss2).
    cbn [load_rows]. unfold bind. rewrite E1, E2. cbn [options stocks].
    rewrite !app_assoc, !map_app, Ho1, Ho2, Hs1, Hs2.
    repeat split; cbn [filter]; destruct (is_option_row row); reflexivity.
Qed.

Lemma load_rows_rejecting (rows : list Row.t) :
  forall st : session_state,
    forallb row_converts rows = false ->
    exists st' : session_state, load_rows rows st = (st', inl ValueError).
Proof.
  induction rows as [|row rows IH]; intros st H; [discriminate|].
  cbn [forallb] in H. cbn [load_rows]. unfold bind.
  destruct (row_converts row) eqn:Hrow.
  - destruct (load_row_converting row st Hrow) as [os [ss [E _]]].
    rewrite E. apply IH. exact H.
  - rewrite (load_row_rejecting row st Hrow). eexists. reflexivity.
Qed.

(** X17.  Load of a readable file succeeds exactly when every row converts,
    that is, when [strike_or_entry] holds a number in every row and
    [premium] holds a number in every row of type "option"; otherwise it
    reports [ValueError].  Nothing else in a row can make it fail. *)
Theorem load_succeeds_iff_rows_convert :
  forall (rows : list Row.t) (st : session_state),
    (snd (load_handler (Table rows) st) = Success "Loaded!" <->
     forallb row_converts rows = true) /\
    (snd (load_handler (Table rows) st) = Error ValueError <->
     forallb row_converts rows = false).
Proof.
  intros rows st. rewrite load_handler_table.
  destruct (forallb row_converts rows) eqn:H.
  - destruct (load_rows_converting rows (mk_state [] []) H) as [os [ss [E _]]].
    rewrite E. cbn [snd]. repeat split; intros; try reflexivity; discriminate.
  - destruct (load_rows_rejecting rows (mk_state [] []) H) as [st' E].
    rewrite E. cbn [snd]. repeat split; intros; try reflexivity; discriminate.
Qed.

(** X18.  Load followed by Save puts a file whose rows all convert into a
    normal form: first the rows of type "option", unchanged and in file
    order, then every other row in file order, rewritten as a stock row
    (type "stock", empty option_type, premium 0).  The portfolio loaded has
    one leg per row. *)
Theorem load_then_save_normal_form :
  forall (rows : list Row.t) (st : session_state),
    forallb row_converts rows = true ->
    fst (save_handler (fst (load_handler (Table rows) st))) =
    Table (filter is_option_row rows ++
           map as_stock_row (filter (fun r => negb (is_option_row r)) rows)) /\
    List.length (legs_of (fst (load_handler (Table rows) st))) = List.length rows.
Proof.
  intros rows st H. rewrite load_handler_table.
  destruct (load_rows_converting rows (mk_state [] []) H) as [os [ss [E [Ho Hs]]]].
  rewrite E. cbn [fst options stocks app]. split.
  - unfold save_handler. cbn [fst options stocks]. now rewrite Ho, Hs.
  - rewrite legs_of_length. cbn [options stocks].
    rewrite <- (length_map option_row os), <- (length_map stock_row ss), Ho, Hs.
    rewrite length_map. apply filter_length.
Qed.

Lemma load_then_save_example :
  fst (save_handler (fst (load_handler
    (Table [Row.mk (PStr "bond") (PStr "buy") (PStr "x") (PNum 95) (PStr "junk");
            Row.mk (PStr "option") (PStr "long") (PStr "call") (PNum 100) (PNum 5)])
    (mk_state [] [])))) =
  Table (filter is_option_row
           [Row.mk (PStr "bond") (PStr "buy") (PStr "x") (PNum 95) (PStr "junk");
            Row.mk (PStr "option") (PStr "long") (PStr "call") (PNum 100) (PNum 5)] ++
         map as_stock_row
           (filter (fun r => negb (is_option_row r))
              [Row.mk (PStr "bond") (PStr "buy") (PStr "x") (PNum 95) (PStr "junk");
               Row.mk (PStr "option") (PStr "long") (PStr "call") (PNum 100) (PNum 5)])).
Proof.
  apply (proj1 (load_then_save_normal_form
    [Row.mk (PStr "bond") (PStr "buy") (PStr "x") (PNum 95) (PStr "junk");
     Row.mk (PStr "option") (PStr "long") (PStr "call") (PNum 100) (PNum 5)]
    (mk_state [] []) eq_refl)).
Defined.

(** ** More on Remove *)

(** X20.  Every index the Remove select box offers is safe: Remove does
    not raise, it takes out the leg at that index of the combined order and
    no other, one of the two lists is left untouched, and there is one leg
    less afterwards. *)
Theorem offered_index_removes_one_leg :
  forall (st : session_state) (remove_idx : Z),
    In remove_idx (remove_choices st) ->
    exists st' : session_state,
      remove_handler remove_idx st = inr st' /\
      legs_of st' = without (Z.to_nat remove_idx) (legs_of st) /\
      (options st' = options st \/ stocks st' = stocks st) /\
      S (List.length (legs_of st')) = List.length (legs_of st).
Proof.
  intros st idx Hin. unfold remove_choices in Hin.
  apply in_map_iff in Hin. destruct Hin as [i [<- Hi]].
  apply in_seq in Hi. rewrite <- legs_of_length in Hi.
  destruct (remove_handler_in_range (Z.of_nat i) st ltac:(lia))
    as [st' [E [Hlegs Hside]]].
  exists st'. repeat split; try assumption.
  rewrite Hlegs. apply without_length. lia.
Qed.

Lemma offered_index_example :
  exists st' : session_state,
    remove_handler 1
      (mk_state [Option.mk (PStr "long") (PStr "call") 100 5]
                [Stock.mk (PStr "buy") 95]) = inr st' /\
    legs_of st' =
    without (Z.to_nat 1)
      (legs_of (mk_state [Option.mk (PStr "long") (PStr "call") 100 5]
                         [Stock.mk (PStr "buy") 95])) /\
    (options st' = options (mk_state [Option.mk (PStr "long") (PStr "call") 100 5]
                                     [Stock.mk (PStr "buy") 95]) \/
     stocks st' = stocks (mk_state [Option.mk (PStr "long") (PStr "call") 100 5]
                                   [Stock.mk (PStr "buy") 95])) /\
    S (List.length (legs_of st')) =
    List.length (legs_of (mk_state [Option.mk (PStr "long") (PStr "call") 100 5]
                                   [Stock.mk (PStr "buy") 95])).
Proof.
  apply (offered_index_removes_one_leg
           (mk_state [Option.mk (PStr "long") (PStr "call") 100 5]
                     [Stock.mk (PStr "buy") 95]) 1).
  right. left. reflexivity.
Defined.

(** ** Save *)

Lemma option_row_converts (o : Option.t) : row_converts (option_row o) = true.
Proof. reflexivity. Qed.

Lemma stock_row_converts (stk : Stock.t) : row_converts (stock_row stk) = true.
Proof.
  unfold row_converts, stock_row, is_option_row. cbn. reflexivity.
Qed.

(** X21.  Save writes one row per leg: first the option rows, one per
    option in list order, then the stock rows, one per stock in list order.
    It never writes a row that Load rejects: whatever the session holds,
    every row written converts, and loading the file reports success. *)
Theorem saved_file_always_loads :
  forall st st0 : session_state,
    exists rows : list Row.t,
      fst (save_handler st) = Table rows /\
      List.length rows = List.length (legs_of st) /\
      firstn (List.length (options st)) rows = map option_row (options st) /\
      skipn (List.length (options st)) rows = map stock_row (stocks st) /\
      filter is_option_row rows = map option_row (options st) /\
      forallb row_converts rows = true /\
      snd (load_handler (Table rows) st0) = Success "Loaded!".
Proof.
  intros st st0. unfold save_handler. cbn [fst].
  eexists; split; [reflexivity|]. repeat split.
  - rewrite length_app, !length_map. symmetry. apply legs_of_length.
  - rewrite firstn_app, length_map, Nat.sub_diag.
    rewrite firstn_all2 by (rewrite length_map; lia).
    cbn [firstn]. apply app_nil_r.
  - rewrite skipn_app, length_map, Nat.sub_diag.
    rewrite skipn_all2 by (rewrite length_map; lia).
    reflexivity.
  - rewrite filter_app.
    assert (Ho : forall os, filter is_option_row (map option_row os) = map option_row os)
      by (induction os as [|o os IH]; cbn; [reflexivity|now rewrite IH]).
    assert (Hs : forall ss, filter is_option_row (map stock_row ss) = [])
      by (induction ss as [|x ss IH]; cbn; [reflexivity|exact IH]).
    now rewrite Ho, Hs, app_nil_r.
  - rewrite forallb_app. apply andb_true_intro. split.
    + apply forallb_forall. intros row Hin. apply in_map_iff in Hin.
      destruct Hin as [o [<- _]]. apply option_row_converts.
    + apply forallb_forall. intros row Hin. apply in_map_iff in Hin.
      destruct Hin as [x [<- _]]. apply stock_row_converts.
  - change (Table (map option_row (options st) ++ map stock_row (stocks st)))
      with (fst (save_handler st)).
    now rewrite load_after_save.
Qed.
